(** * The changelog store and report renderer of [changelog.py]

    A shallow embedding of the core functions of [changelog.py]
    ([load_changelog], [save_changelog], [add_entry], [edit_entry],
    [delete_entry], [generate_html_file]) and the properties of the entry
    store and of the rendered report that follow from the code.

    Python [str] values are sequences of Unicode code points; the state of
    the program's surroundings (the changelog file, the message boxes shown,
    the report files written) is threaded explicitly through a small
    state-and-exception monad. *)

From Stdlib Require Import String Ascii.
From Stdlib Require Import List PeanoNat NArith Bool Lia.
From Stdlib Require Import Sorting.Sorted Sorting.Permutation.
Import ListNotations.

Set Implicit Arguments.

(** ** Python strings *)

Module PyStr.

(** A [str] is a sequence of code points. *)
Definition pystr := list N.

(** ASCII literals of the source. *)
Definition lit (s : string) : pystr :=
  map N_of_ascii (list_ascii_of_string s).

(** The double quote, which a literal cannot hold. *)
Definition dq : pystr := [34%N].

(** [a == b] on strings. *)
Fixpoint str_eqb (a b : pystr) : bool :=
  match a, b with
  | [], [] => true
  | x :: a', y :: b' => (x =? y)%N && str_eqb a' b'
  | _, _ => false
  end.

(** [a < b] on strings: lexicographic on code points, a proper prefix first. *)
Fixpoint str_ltb (a b : pystr) : bool :=
  match a, b with
  | _, [] => false
  | [], _ :: _ => true
  | x :: a', y :: b' =>
      if (x <? y)%N then true
      else if (x =? y)%N then str_ltb a' b'
      else false
  end.

(** [str.isspace] on one code point: the ASCII white space of
    [_Py_ascii_whitespace] and the code points of [_PyUnicode_IsWhitespace]. *)
Definition isspace (c : N) : bool :=
  ((9 <=? c) && (c <=? 13) || (28 <=? c) && (c <=? 32)
   || (c =? 133) || (c =? 160) || (c =? 5760)
   || (8192 <=? c) && (c <=? 8202)
   || (c =? 8232) || (c =? 8233) || (c =? 8239) || (c =? 8287)
   || (c =? 12288))%N.

Fixpoint lstrip (s : pystr) : pystr :=
  match s with
  | [] => []
  | c :: s' => if isspace c then lstrip s' else s
  end.

Definition rstrip (s : pystr) : pystr := rev (lstrip (rev s)).

(** [s.strip()] with no argument. *)
Definition strip (s : pystr) : pystr := rstrip (lstrip s).

(** Truth value of a string: [not s] holds of the empty string only. *)
Definition truthy (s : pystr) : bool :=
  match s with [] => false | _ :: _ => true end.

(** [s.replace(old, new)] for a one-character [old]. *)
Definition replace_char (old : N) (new : pystr) (s : pystr) : pystr :=
  flat_map (fun c => if (c =? old)%N then new else [c]) s.

(** [sub in s]. *)
Fixpoint prefixb (p s : pystr) : bool :=
  match p, s with
  | [], _ => true
  | _ :: _, [] => false
  | x :: p', y :: s' => (x =? y)%N && prefixb p' s'
  end.

Fixpoint containsb (sub s : pystr) : bool :=
  prefixb sub s ||
  match s with
  | [] => false
  | _ :: s' => containsb sub s'
  end.

(** A code point the UTF-8 codec encodes: one of Unicode that is not a
    surrogate (U+D800 to U+DFFF). *)
Definition encodable_char (c : N) : bool :=
  ((c <? 55296) || ((57343 <? c) && (c <=? 1114111)))%N.

(** [s.encode('utf-8')] does not raise UnicodeEncodeError. *)
Definition encodable (s : pystr) : bool := forallb encodable_char s.

(** [s.isascii()] *)
Definition is_ascii (s : pystr) : bool := forallb (fun c => (c <? 128)%N) s.

(** [sub] occurs in [s] as a contiguous block. *)
Definition occurs_in (sub s : pystr) : Prop :=
  exists pre post, s = pre ++ sub ++ post.

End PyStr.
Import PyStr.

(** ** Date and time values *)

Module DateTime.

(** A naive [datetime.datetime], as [datetime.datetime.now()] returns it. *)
Record datetime := mkDatetime {
  year : N;
  month : N;
  day : N;
  hour : N;
  minute : N;
  second : N;
  microsecond : N
}.

Definition is_leap (y : N) : bool :=
  ((y mod 4 =? 0) && (negb (y mod 100 =? 0) || (y mod 400 =? 0)))%N.

Definition days_in_month (y m : N) : N :=
  (if m =? 2 then (if is_leap y then 29 else 28)
   else if (m =? 4) || (m =? 6) || (m =? 9) || (m =? 11) then 30
   else 31)%N.

(** The field ranges of the [datetime] constructor. *)
Definition valid_datetime (d : datetime) : bool :=
  ((1 <=? year d) && (year d <=? 9999)
   && (1 <=? month d) && (month d <=? 12)
   && (1 <=? day d) && (day d <=? days_in_month (year d) (month d))
   && (hour d <? 24) && (minute d <? 60) && (second d <? 60)
   && (microsecond d <? 1000000))%N.

(** [a < b] on naive [datetime] values: the fields are compared in order. *)
Definition datetime_lt (a b : datetime) : Prop :=
  (year a < year b \/ year a = year b /\
   (month a < month b \/ month a = month b /\
    (day a < day b \/ day a = day b /\
     (hour a < hour b \/ hour a = hour b /\
      (minute a < minute b \/ minute a = minute b /\
       (second a < second b \/ second a = second b /\
        microsecond a < microsecond b))))))%N.

(** ['%0wd' % n]: the last [width] decimal digits of [n], most significant
    first. *)
Fixpoint pad (width : nat) (n : N) : pystr :=
  match width with
  | O => []
  | S w => (48 + (n / 10 ^ N.of_nat w) mod 10)%N :: pad w n
  end.

(** [d.isoformat()] of a naive [datetime]: [YYYY-MM-DDTHH:MM:SS], followed by
    [.ffffff] when the microsecond is not zero. *)
Definition isoformat (d : datetime) : pystr :=
  pad 4 (year d) ++ lit "-" ++ pad 2 (month d) ++ lit "-" ++ pad 2 (day d)
  ++ lit "T"
  ++ pad 2 (hour d) ++ lit ":" ++ pad 2 (minute d) ++ lit ":" ++ pad 2 (second d)
  ++ (if (microsecond d =? 0)%N then [] else lit "." ++ pad 6 (microsecond d)).

(** *** A reader of the format [isoformat] writes

    [datetime.fromisoformat] itself is a parameter of the renderer below;
    [parse_isoformat] reads exactly the strings [isoformat] produces and is
    used to say that a string is a well-formed ISO-8601 date and time. *)

Definition digit_val (c : N) : option N :=
  if ((48 <=? c) && (c <=? 57))%N then Some (c - 48)%N else None.

Fixpoint read_digits (width : nat) (acc : N) (s : pystr) : option (N * pystr) :=
  match width with
  | O => Some (acc, s)
  | S w =>
      match s with
      | [] => None
      | c :: s' =>
          match digit_val c with
          | Some d => read_digits w (acc * 10 + d)%N s'
          | None => None
          end
      end
  end.

Definition expect (c : N) (s : pystr) : option pystr :=
  match s with
  | [] => None
  | x :: s' => if (x =? c)%N then Some s' else None
  end.

Definition obind {A B} (o : option A) (k : A -> option B) : option B :=
  match o with
  | Some a => k a
  | None => None
  end.

Definition read_fraction (s : pystr) : option N :=
  match s with
  | [] => Some 0%N
  | _ :: _ =>
      obind (expect 46 s) (fun s =>
      obind (read_digits 6 0 s) (fun '(us, s) =>
      match s with
      | [] => if (us =? 0)%N then None else Some us
      | _ :: _ => None
      end))
  end.

Definition parse_isoformat (s : pystr) : option datetime :=
  obind (read_digits 4 0 s) (fun '(y, s) =>
  obind (expect 45 s) (fun s =>
  obind (read_digits 2 0 s) (fun '(m, s) =>
  obind (expect 45 s) (fun s =>
  obind (read_digits 2 0 s) (fun '(d, s) =>
  obind (expect 84 s) (fun s =>
  obind (read_digits 2 0 s) (fun '(hh, s) =>
  obind (expect 58 s) (fun s =>
  obind (read_digits 2 0 s) (fun '(mm, s) =>
  obind (expect 58 s) (fun s =>
  obind (read_digits 2 0 s) (fun '(ss, s) =>
  obind (read_fraction s) (fun us =>
  let d := mkDatetime y m d hh mm ss us in
  if valid_datetime d then Some d else None)))))))))))).

(** [d.strftime('%Y-%m-%d %H:%M:%S')] for a year of four digits, from 1000
    on, where the platforms agree on ['%Y']. *)
Definition format_ymd_hms (d : datetime) : pystr :=
  pad 4 (year d) ++ lit "-" ++ pad 2 (month d) ++ lit "-" ++ pad 2 (day d)
  ++ lit " "
  ++ pad 2 (hour d) ++ lit ":" ++ pad 2 (minute d) ++ lit ":" ++ pad 2 (second d).

End DateTime.
Import DateTime.

(** [s.lower()] of a string [s] of ASCII characters: [A] to [Z] become [a] to
    [z].  It stands for [str.lower] on such strings only. *)
Definition ascii_lower (s : pystr) : pystr :=
  map (fun c => if ((65 <=? c) && (c <=? 90))%N then (c + 32)%N else c) s.

(** ** Data model *)

(** One record of the changelog: the dictionary with the keys
    ['timestamp'], ['operation'] and ['text']. *)
Record Entry := mkEntry {
  timestamp : pystr;
  operation : pystr;
  text : pystr
}.

(** Exceptions that leave a core function. *)
Inductive exn :=
| UnicodeDecodeError
| ValueError
| UnicodeEncodeError
| RecursionError
| AttributeError
| KeyError
| TypeError.

(** What reading [CHANGELOG_FILE] yields, by what lines 19 to 25 do with the
    file.  [Stored] is a JSON list of records with the three string fields;
    its strings are what [json.load] returns, which can hold a lone
    surrogate written as an escape.  A JSON document of another shape on
    which the sort does not raise has no constructor here. *)
Inductive document :=
| Missing                      (* [os.path.exists] is false *)
| Undecodable                  (* the bytes are not UTF-8: reading raises UnicodeDecodeError *)
| NotJson                      (* [json.load] raises JSONDecodeError *)
| Unloadable (e : exn)         (* another exception leaves [json.load] (RecursionError,
                                  ValueError) or the sort (AttributeError, KeyError,
                                  TypeError, on JSON that is no list of records) *)
| Stored (entries : list Entry).

(** [json.dump(..., ensure_ascii=False)] into a file opened with
    [encoding='utf-8'] can write the entry: none of its strings holds a
    character the codec refuses. *)
Definition encodable_entry (e : Entry) : bool :=
  encodable (timestamp e) && encodable (operation e) && encodable (text e).

Definition writable (entries : list Entry) : bool :=
  forallb encodable_entry entries.

(** What the program does to its surroundings, in the order it happens. *)
Inductive event :=
| showwarning (title message : pystr)
| showerror (title message : pystr)
| showinfo (title message : pystr)
| changelog_written (entries : list Entry)
| changelog_truncated
| asksaveasfilename (answer : pystr)
| report_written (filepath content : pystr).

Record world := mkWorld {
  changelog : document;
  trace : list event
}.

Inductive result (A : Type) :=
| Ok (a : A)
| Raise (e : exn).
Arguments Raise {A} e.

(** ** A state-and-exception monad over the world *)

Module IO.

Definition M (A : Type) := world -> result A * world.

Definition ret {A} (a : A) : M A := fun w => (Ok a, w).

Definition bind {A B} (m : M A) (k : A -> M B) : M B :=
  fun w =>
    match m w with
    | (Ok a, w') => k a w'
    | (Raise e, w') => (Raise e, w')
    end.

Definition raise {A} (e : exn) : M A := fun w => (Raise e, w).

Definition read_changelog : M document := fun w => (Ok (changelog w), w).

Definition emit (ev : event) : M unit :=
  fun w => (Ok tt, mkWorld (changelog w) (trace w ++ [ev])).

(** [open(CHANGELOG_FILE, 'w', encoding='utf-8')] empties the file, then
    [json.dump] writes it piece by piece.  A string the codec refuses raises
    UnicodeEncodeError at its piece: the file is left with the pieces before
    it, which are no JSON document. *)
Definition write_changelog (entries : list Entry) : M unit :=
  fun w =>
    if writable entries then
      (Ok tt, mkWorld (Stored entries) (trace w ++ [changelog_written entries]))
    else
      (Raise UnicodeEncodeError, mkWorld NotJson (trace w ++ [changelog_truncated])).

End IO.
Import IO.

Notation "x <- c ;; k" := (bind c (fun x => k))
  (at level 61, c at next level, right associativity).
Notation "c ;;; k" := (bind c (fun _ => k))
  (at level 61, right associativity).

(** ** The entry store *)

(** [entries.sort(key=lambda x: x['timestamp'], reverse=True)]: a stable
    sort, largest key first; entries with equal keys keep their order. *)
Fixpoint insert_desc (e : Entry) (l : list Entry) : list Entry :=
  match l with
  | [] => [e]
  | y :: ys =>
      if str_ltb (timestamp e) (timestamp y) then y :: insert_desc e ys
      else e :: l
  end.

Definition sort_desc (l : list Entry) : list Entry :=
  fold_right insert_desc [] l.

Definition load_changelog : M (list Entry) :=
  d <- read_changelog ;;
  match d with
  | Missing => ret []
  | Undecodable => raise UnicodeDecodeError
  | NotJson => ret []
  | Unloadable e => raise e
  | Stored entries => ret (sort_desc entries)
  end.

Definition save_changelog (entries : list Entry) : M unit :=
  write_changelog entries.

(** [now] is the value [datetime.datetime.now()] returns during the call. *)
Definition add_entry (now : datetime) (operation text : pystr) : M bool :=
  if negb (truthy (strip text)) then
    emit (showwarning (lit "Input Error") (lit "Changelog text cannot be empty.")) ;;;
    ret false
  else
    entries <- load_changelog ;;
    let new_entry := mkEntry (isoformat now) operation text in
    save_changelog (entries ++ [new_entry]) ;;;
    ret true.

(** The loop of [edit_entry]: the first entry with the timestamp gets the
    new operation and text, and the loop stops there. *)
Fixpoint update_first (ts new_operation new_text : pystr) (entries : list Entry)
  : list Entry * bool :=
  match entries with
  | [] => ([], false)
  | entry :: rest =>
      if str_eqb (timestamp entry) ts then
        (mkEntry (timestamp entry) new_operation new_text :: rest, true)
      else
        let (rest', entry_found) := update_first ts new_operation new_text rest in
        (entry :: rest', entry_found)
  end.

Definition edit_entry (ts new_operation new_text : pystr) : M bool :=
  if negb (truthy (strip new_text)) then
    emit (showwarning (lit "Input Error") (lit "Changelog text cannot be empty.")) ;;;
    ret false
  else
    entries <- load_changelog ;;
    let (entries', entry_found) := update_first ts new_operation new_text entries in
    if entry_found then
      save_changelog entries' ;;;
      ret true
    else
      emit (showerror (lit "Error")
              (lit "Could not find the entry to edit. It may have been deleted.")) ;;;
      ret false.

Definition delete_entry (ts : pystr) : M bool :=
  entries <- load_changelog ;;
  let entries_to_keep :=
    filter (fun entry => negb (str_eqb (timestamp entry) ts)) entries in
  if Nat.eqb (length entries) (length entries_to_keep) then
    emit (showerror (lit "Error") (lit "Could not find the entry to delete.")) ;;;
    ret false
  else
    save_changelog entries_to_keep ;;;
    ret true.

(** ** The report renderer *)

(** [html.escape(s)], with [quote=True]: five replacements, the ampersand
    first. *)
Definition html_escape (s : pystr) : pystr :=
  let s := replace_char 38 (lit "&amp;") s in
  let s := replace_char 60 (lit "&lt;") s in
  let s := replace_char 62 (lit "&gt;") s in
  let s := replace_char 34 (lit "&quot;") s in
  replace_char 39 (lit "&#x27;") s.

Definition nl : pystr := [10%N].
Definition indent8 : pystr := lit "        ".
Definition indent12 : pystr := lit "            ".

Definition html_head : pystr :=
  nl ++
  lit "<!DOCTYPE html><html lang=" ++ dq ++ lit "en" ++ dq
  ++ lit "><head><meta charset=" ++ dq ++ lit "UTF-8" ++ dq
  ++ lit "><meta name=" ++ dq ++ lit "viewport" ++ dq
  ++ lit " content=" ++ dq ++ lit "width=device-width, initial-scale=1.0" ++ dq
  ++ lit "><title>Changelog</title>" ++ nl
  ++ lit "<style>body{font-family:-apple-system,BlinkMacSystemFont," ++ dq ++ lit "Segoe UI" ++ dq ++ lit ",Roboto,Helvetica,Arial,sans-serif;line-height:1.6;background-color:#f4f7f9;color:#333;margin:0;padding:2em;}.container{max-width:800px;margin:0 auto;background-color:#ffffff;padding:2em;border-radius:8px;box-shadow:0 4px 12px rgba(0,0,0,0.08);}h1{color:#1a253c;border-bottom:2px solid #eef2f5;padding-bottom:0.5em;margin-top:0;}.entry{padding:1em 0;border-bottom:1px solid #eef2f5;display:flex;align-items:flex-start;flex-wrap:wrap;}.entry:last-child{border-bottom:none;}.tag{font-weight:600;padding:0.2em 0.6em;border-radius:12px;color:#fff;font-size:0.85em;margin-right:1em;flex-shrink:0;}.tag.created{background-color:#28a745;}.tag.edited{background-color:#007bff;}.tag.deleted{background-color:#dc3545;}.text{flex-grow:1;word-break:break-word;}.date{font-size:0.8em;color:#888;margin-left:1.5em;flex-shrink:0;align-self:center;}@media (max-width:600px){.entry{flex-direction:column;align-items:flex-start;}.date{margin-left:0;margin-top:0.5em;}}"
  ++ nl
  ++ lit "</style></head><body><div class=" ++ dq ++ lit "container" ++ dq
  ++ lit "><h1>Project Changelog</h1>".

Definition html_tail : pystr := lit "</div></body></html>".

(** The [html_template] f-string around the entry blocks. *)
Definition html_template (html_content : pystr) : pystr :=
  html_head ++ html_content ++ html_tail.

(** The f-string of one entry. *)
Definition entry_html (op_class operation safe_text formatted_date : pystr) : pystr :=
  nl ++ indent8 ++ lit "<div class=" ++ dq ++ lit "entry" ++ dq ++ lit ">" ++ nl
  ++ indent12 ++ lit "<span class=" ++ dq ++ lit "tag " ++ op_class ++ dq ++ lit ">"
  ++ operation ++ lit "</span>" ++ nl
  ++ indent12 ++ lit "<span class=" ++ dq ++ lit "text" ++ dq ++ lit ">"
  ++ safe_text ++ lit "</span>" ++ nl
  ++ indent12 ++ lit "<span class=" ++ dq ++ lit "date" ++ dq ++ lit ">"
  ++ formatted_date ++ lit "</span>" ++ nl
  ++ indent8 ++ lit "</div>" ++ nl
  ++ indent8.

Section Renderer.

(** Library functions the renderer calls and this development leaves open:
    [str.lower], [datetime.fromisoformat] ([None] when it raises ValueError)
    and [strftime] with the format ['%Y-%m-%d %H:%M:%S']. *)
Variable str_lower : pystr -> pystr.
Variable fromisoformat : pystr -> option datetime.
Variable strftime : datetime -> pystr.

(** The body of the loop over the entries. *)
Definition entry_block (entry : Entry) : M pystr :=
  let op_class := str_lower (operation entry) in
  let safe_text := html_escape (text entry) in
  match fromisoformat (timestamp entry) with
  | None => raise ValueError
  | Some ts =>
      let formatted_date := strftime ts in
      ret (entry_html op_class (operation entry) safe_text formatted_date)
  end.

Fixpoint render_entries (entries : list Entry) (html_content : pystr) : M pystr :=
  match entries with
  | [] => ret html_content
  | entry :: rest =>
      block <- entry_block entry ;;
      render_entries rest (html_content ++ block)
  end.

(** [answer] is what the file dialog returns (empty when it is dismissed);
    [write_failure] is the message of the exception raised while writing the
    destination, if any.  The destination is taken to be a file other than
    [CHANGELOG_FILE]: the write of the report is an event of its own and
    leaves the changelog document as it is. *)
Definition generate_html_file (answer : pystr) (write_failure : option pystr)
  : M unit :=
  entries <- load_changelog ;;
  match entries with
  | [] =>
      emit (showinfo (lit "No Data")
              (lit "Changelog is empty. Add some entries first."))
  | _ :: _ =>
      html_content <- render_entries entries [] ;;
      emit (asksaveasfilename answer) ;;;
      let filepath := answer in
      if negb (truthy filepath) then ret tt
      else
        match write_failure with
        | None =>
            emit (report_written filepath (html_template html_content)) ;;;
            emit (showinfo (lit "Success")
                    (lit "Changelog successfully generated at:" ++ nl ++ filepath))
        | Some e =>
            emit (showerror (lit "Error") (lit "Failed to save HTML file: " ++ e))
        end
  end.

(** [fromisoformat] accepts the timestamp of the entry. *)
Definition parses (entry : Entry) : bool :=
  match fromisoformat (timestamp entry) with
  | Some _ => true
  | None => false
  end.

(** The block of an entry whose timestamp parses. *)
Definition rendered_block (entry : Entry) : pystr :=
  match fromisoformat (timestamp entry) with
  | Some ts =>
      entry_html (str_lower (operation entry)) (operation entry)
        (html_escape (text entry)) (strftime ts)
  | None => []
  end.

(** The document written for a list of entries whose timestamps parse. *)
Definition report (entries : list Entry) : pystr :=
  html_template (concat (map rendered_block entries)).

(** What a successful export adds to the trace. *)
Definition export_events (answer : pystr) (entries : list Entry) : list event :=
  [asksaveasfilename answer;
   report_written answer (report entries);
   showinfo (lit "Success")
     (lit "Changelog successfully generated at:" ++ nl ++ answer)].

End Renderer.

(** ** The window *)

Definition OPERATIONS : list pystr :=
  [lit "Created"; lit "Edited"; lit "Deleted"].

Module ChangelogApp.

(** The attributes of a [ChangelogApp] and the state of its widgets the
    methods read or change.  [text_input] is the text of the [Text] widget
    without the newline Tk keeps at its end; [delete_button] and
    [clear_button] hold whether the button is enabled; [asked] lists the
    yes/no questions put to the user, oldest first. *)
Record state := mkState {
  entries : list Entry;
  selected_entry_timestamp : option pystr;
  operation_var : pystr;
  text_input : pystr;
  text_input_focus : bool;
  save_button : pystr;
  delete_button : bool;
  clear_button : bool;
  changelog_list : list pystr;
  curselection : list nat;
  asked : list (pystr * pystr)
}.

(** Exceptions that leave a method: those of the core functions, and the
    IndexError of [self.entries[selected_index]]. *)
Inductive gui_exn :=
| CoreError (e : exn)
| IndexError.

Inductive outcome (A : Type) :=
| Done (a : A)
| Failed (e : gui_exn).
Arguments Done {A} a.
Arguments Failed {A} e.

(** A method runs on the window and the world; what it changed before an
    exception stays changed. *)
Definition G (A : Type) := state -> world -> outcome A * state * world.

Definition gret {A} (a : A) : G A := fun s w => (Done a, s, w).

Definition gbind {A B} (m : G A) (k : A -> G B) : G B :=
  fun s w =>
    match m s w with
    | (Done a, s', w') => k a s' w'
    | (Failed e, s', w') => (Failed e, s', w')
    end.

Definition gfail {A} (e : gui_exn) : G A := fun s w => (Failed e, s, w).

Definition lift {A} (m : M A) : G A :=
  fun s w =>
    match m w with
    | (Ok a, w') => (Done a, s, w')
    | (Raise e, w') => (Failed (CoreError e), s, w')
    end.

Definition get : G state := fun s w => (Done s, s, w).

Definition modify (f : state -> state) : G unit := fun s w => (Done tt, f s, w).

(** *** Assignments and widget calls *)

Definition set_entries (v : list Entry) (s : state) : state :=
  mkState v (selected_entry_timestamp s) (operation_var s) (text_input s)
    (text_input_focus s) (save_button s) (delete_button s) (clear_button s)
    (changelog_list s) (curselection s) (asked s).

Definition set_selected_entry_timestamp (v : option pystr) (s : state) : state :=
  mkState (entries s) v (operation_var s) (text_input s)
    (text_input_focus s) (save_button s) (delete_button s) (clear_button s)
    (changelog_list s) (curselection s) (asked s).

(** [self.operation_var.set(v)] *)
Definition operation_var_set (v : pystr) (s : state) : state :=
  mkState (entries s) (selected_entry_timestamp s) v (text_input s)
    (text_input_focus s) (save_button s) (delete_button s) (clear_button s)
    (changelog_list s) (curselection s) (asked s).

(** [self.text_input.get("1.0", tk.END)]: the text and the final newline. *)
Definition text_input_get (s : state) : pystr := text_input s ++ nl.

(** [self.text_input.delete('1.0', tk.END)] *)
Definition text_input_delete (s : state) : state :=
  mkState (entries s) (selected_entry_timestamp s) (operation_var s) []
    (text_input_focus s) (save_button s) (delete_button s) (clear_button s)
    (changelog_list s) (curselection s) (asked s).

(** [self.text_input.insert('1.0', v)] *)
Definition text_input_insert (v : pystr) (s : state) : state :=
  mkState (entries s) (selected_entry_timestamp s) (operation_var s)
    (v ++ text_input s)
    (text_input_focus s) (save_button s) (delete_button s) (clear_button s)
    (changelog_list s) (curselection s) (asked s).

(** [self.text_input.focus()] *)
Definition text_input_focus_set (s : state) : state :=
  mkState (entries s) (selected_entry_timestamp s) (operation_var s) (text_input s)
    true (save_button s) (delete_button s) (clear_button s)
    (changelog_list s) (curselection s) (asked s).

(** [self.save_button.config(text=v)] *)
Definition save_button_config (v : pystr) (s : state) : state :=
  mkState (entries s) (selected_entry_timestamp s) (operation_var s) (text_input s)
    (text_input_focus s) v (delete_button s) (clear_button s)
    (changelog_list s) (curselection s) (asked s).

(** [self.delete_button.config(state=...)], [true] for [tk.NORMAL]. *)
Definition delete_button_config (v : bool) (s : state) : state :=
  mkState (entries s) (selected_entry_timestamp s) (operation_var s) (text_input s)
    (text_input_focus s) (save_button s) v (clear_button s)
    (changelog_list s) (curselection s) (asked s).

Definition clear_button_config (v : bool) (s : state) : state :=
  mkState (entries s) (selected_entry_timestamp s) (operation_var s) (text_input s)
    (text_input_focus s) (save_button s) (delete_button s) v
    (changelog_list s) (curselection s) (asked s).

(** [self.changelog_list.delete(0, tk.END)]: no line is left, and none is
    selected. *)
Definition changelog_list_delete (s : state) : state :=
  mkState (entries s) (selected_entry_timestamp s) (operation_var s) (text_input s)
    (text_input_focus s) (save_button s) (delete_button s) (clear_button s)
    [] [] (asked s).

(** [self.changelog_list.insert(tk.END, v)] *)
Definition changelog_list_insert (v : pystr) (s : state) : state :=
  mkState (entries s) (selected_entry_timestamp s) (operation_var s) (text_input s)
    (text_input_focus s) (save_button s) (delete_button s) (clear_button s)
    (changelog_list s ++ [v]) (curselection s) (asked s).

(** [self.changelog_list.selection_clear(0, tk.END)] *)
Definition changelog_list_selection_clear (s : state) : state :=
  mkState (entries s) (selected_entry_timestamp s) (operation_var s) (text_input s)
    (text_input_focus s) (save_button s) (delete_button s) (clear_button s)
    (changelog_list s) [] (asked s).

(** [messagebox.askyesno(title, message)] was shown. *)
Definition askyesno (title message : pystr) (s : state) : state :=
  mkState (entries s) (selected_entry_timestamp s) (operation_var s) (text_input s)
    (text_input_focus s) (save_button s) (delete_button s) (clear_button s)
    (changelog_list s) (curselection s) (asked s ++ [(title, message)]).

End ChangelogApp.
Import ChangelogApp.

Notation "x <~ c ;; k" := (gbind c (fun x => k))
  (at level 61, c at next level, right associativity).
Notation "c ;;~ k" := (gbind c (fun _ => k))
  (at level 61, right associativity).

(** The line of the list for one entry: its text is cut after 70 characters
    and its newlines become spaces. *)
Definition text_preview (text : pystr) : pystr :=
  let text_preview :=
    if Nat.ltb 70 (length text) then firstn 70 text ++ lit "..." else text in
  replace_char 10 (lit " ") text_preview.

Definition display_str (entry : Entry) : pystr :=
  lit "[" ++ operation entry ++ lit "] " ++ text_preview (text entry).

Fixpoint insert_lines (entries : list Entry) : G unit :=
  match entries with
  | [] => gret tt
  | entry :: rest =>
      modify (changelog_list_insert (display_str entry)) ;;~
      insert_lines rest
  end.

Definition refresh_changelog_list : G unit :=
  loaded <~ lift load_changelog ;;
  modify (set_entries loaded) ;;~
  modify changelog_list_delete ;;~
  a <~ get ;;
  insert_lines (entries a).

Definition on_entry_select : G unit :=
  a <~ get ;;
  match curselection a with
  | [] => gret tt
  | selected_index :: _ =>
      match nth_error (entries a) selected_index with
      | None => gfail IndexError
      | Some selected_entry =>
          modify (set_selected_entry_timestamp (Some (timestamp selected_entry))) ;;~
          modify (operation_var_set (operation selected_entry)) ;;~
          modify text_input_delete ;;~
          modify (text_input_insert (text selected_entry)) ;;~
          modify (save_button_config (lit "Save Changes")) ;;~
          modify (delete_button_config true) ;;~
          modify (clear_button_config true)
      end
  end.

Definition clear_selection : G unit :=
  modify (set_selected_entry_timestamp None) ;;~
  modify changelog_list_selection_clear ;;~
  modify (operation_var_set (hd [] OPERATIONS)) ;;~
  modify text_input_delete ;;~
  modify (save_button_config (lit "Add Entry")) ;;~
  modify (delete_button_config false) ;;~
  modify (clear_button_config false) ;;~
  modify text_input_focus_set.

(** The timestamp [if self.selected_entry_timestamp:] lets through: it is
    neither [None] nor empty. *)
Definition selected (s : state) : option pystr :=
  match selected_entry_timestamp s with
  | Some ts => if truthy ts then Some ts else None
  | None => None
  end.

Definition save_entry_callback (now : datetime) : G unit :=
  a <~ get ;;
  let operation := operation_var a in
  let text := strip (text_input_get a) in
  success <~
    match selected a with
    | Some ts =>
        success <~ lift (edit_entry ts operation text) ;;
        (if success : bool then
           lift (emit (showinfo (lit "Success") (lit "Entry updated successfully!")))
         else gret tt) ;;~
        gret success
    | None =>
        success <~ lift (add_entry now operation text) ;;
        (if success : bool then
           lift (emit (showinfo (lit "Success") (lit "New entry added successfully!")))
         else gret tt) ;;~
        gret success
    end ;;
  if success : bool then
    refresh_changelog_list ;;~
    clear_selection
  else gret tt.

(** [confirm] is the answer to the question. *)
Definition delete_entry_callback (confirm : bool) : G unit :=
  a <~ get ;;
  match selected a with
  | None => gret tt
  | Some ts =>
      modify (askyesno (lit "Confirm Deletion")
                (lit "Are you sure you want to permanently delete this entry?")) ;;~
      if confirm then
        success <~ lift (delete_entry ts) ;;
        if success : bool then
          lift (emit (showinfo (lit "Success") (lit "Entry deleted successfully."))) ;;~
          refresh_changelog_list ;;~
          clear_selection
        else gret tt
      else gret tt
  end.

(** The attributes and widgets as [__init__] sets them up. *)
Definition initial_state : state :=
  mkState [] None (hd [] OPERATIONS) [] true (lit "Add Entry") false false [] [] [].

Definition init : G unit :=
  modify (fun _ => initial_state) ;;~
  refresh_changelog_list.

(** *** Closed forms *)

(** The window after a refresh that loaded [loaded]. *)
Definition refreshed (loaded : list Entry) (s : state) : state :=
  mkState loaded (selected_entry_timestamp s) (operation_var s) (text_input s)
    (text_input_focus s) (save_button s) (delete_button s) (clear_button s)
    (map display_str loaded) [] (asked s).

(** The window after [clear_selection]. *)
Definition cleared (s : state) : state :=
  mkState (entries s) None (lit "Created") [] true (lit "Add Entry") false false
    (changelog_list s) [] (asked s).

(** The window after the entry [e] was selected. *)
Definition editing (e : Entry) (s : state) : state :=
  mkState (entries s) (Some (timestamp e)) (operation e) (text e)
    (text_input_focus s) (lit "Save Changes") true true
    (changelog_list s) (curselection s) (asked s).

(** The list shows the loaded entries, and the buttons fit the mode in which
    the callbacks act, which is editing when [self.selected_entry_timestamp]
    is true. *)
Definition consistent (s : state) : Prop :=
  changelog_list s = map display_str (entries s) /\
  match selected s with
  | None =>
      save_button s = lit "Add Entry" /\ delete_button s = false
      /\ clear_button s = false
  | Some _ =>
      save_button s = lit "Save Changes" /\ delete_button s = true
      /\ clear_button s = true
  end.

Definition entry_added : event :=
  showinfo (lit "Success") (lit "New entry added successfully!").

Definition entry_updated : event :=
  showinfo (lit "Success") (lit "Entry updated successfully!").

Definition entry_deleted : event :=
  showinfo (lit "Success") (lit "Entry deleted successfully.").

Definition delete_question : pystr * pystr :=
  (lit "Confirm Deletion",
   lit "Are you sure you want to permanently delete this entry?").

(** The state of a method's run. *)
Definition state_of {A} (r : outcome A * state * world) : state := snd (fst r).

(** ** Specification vocabulary *)

(** [a] does not come after [b] in a list sorted by timestamp, newest
    first. *)
Definition desc (a b : Entry) : Prop :=
  str_ltb (timestamp a) (timestamp b) = false.

(** The entries [Load] shows for a readable document. *)
Definition entries_of (d : document) : list Entry :=
  match d with
  | Stored entries => sort_desc entries
  | _ => []
  end.

Definition readable (d : document) : bool :=
  match d with
  | Undecodable => false
  | Unloadable _ => false
  | _ => true
  end.

(** The exception [load_changelog] raises on a document it cannot read. *)
Definition load_error (d : document) : exn :=
  match d with
  | Unloadable e => e
  | _ => UnicodeDecodeError
  end.

(** The world after one more event. *)
Definition after (w : world) (evs : list event) : world :=
  mkWorld (changelog w) (trace w ++ evs).

(** The world after [save_changelog entries] wrote the entries. *)
Definition saved (w : world) (entries : list Entry) : world :=
  mkWorld (Stored entries) (trace w ++ [changelog_written entries]).

(** The world after [save_changelog] raised: the file is left without a
    document. *)
Definition truncated (w : world) : world :=
  mkWorld NotJson (trace w ++ [changelog_truncated]).

(** What a function yields that ends in [save_changelog(entries)] and
    [return True]. *)
Definition save_and_succeed (w : world) (entries : list Entry)
  : result bool * world :=
  if writable entries then (Ok true, saved w entries)
  else (Raise UnicodeEncodeError, truncated w).

Definition empty_text_warning : event :=
  showwarning (lit "Input Error") (lit "Changelog text cannot be empty.").

Definition edit_not_found : event :=
  showerror (lit "Error")
    (lit "Could not find the entry to edit. It may have been deleted.").

Definition delete_not_found : event :=
  showerror (lit "Error") (lit "Could not find the entry to delete.").

Definition nothing_to_export : event :=
  showinfo (lit "No Data") (lit "Changelog is empty. Add some entries first.").

(** What [html.escape] makes of one character. *)
Definition escape_char (c : N) : pystr :=
  if (c =? 38)%N then lit "&amp;"
  else if (c =? 60)%N then lit "&lt;"
  else if (c =? 62)%N then lit "&gt;"
  else if (c =? 34)%N then lit "&quot;"
  else if (c =? 39)%N then lit "&#x27;"
  else [c].

(** The character references [html.escape] writes, without the ampersand. *)
Definition entity_names : list pystr :=
  [lit "amp;"; lit "lt;"; lit "gt;"; lit "quot;"; lit "#x27;"].

Definition markup_char (c : N) : bool :=
  ((c =? 60) || (c =? 62) || (c =? 34) || (c =? 39))%N.

(** No character of [s] is markup: there is no angle bracket and no quote,
    and every ampersand starts one of the character references. *)
Fixpoint escaped (s : pystr) : bool :=
  match s with
  | [] => true
  | c :: s' =>
      (if (c =? 38)%N then existsb (fun name => prefixb name s') entity_names
       else negb (markup_char c))
      && escaped s'
  end.

(** The span that holds the text of an entry, and the span of its tag. *)
Definition text_span (safe_text : pystr) : pystr :=
  lit "<span class=" ++ dq ++ lit "text" ++ dq ++ lit ">" ++ safe_text
  ++ lit "</span>".

Definition tag_span (op_class operation : pystr) : pystr :=
  lit "<span class=" ++ dq ++ lit "tag " ++ op_class ++ dq ++ lit ">"
  ++ operation ++ lit "</span>".

(** An entry whose text is a script element, and one whose operation is. *)
Definition entry_script_text : Entry :=
  mkEntry (lit "2024-05-01T10:00:00") (lit "Created")
    (lit "<script>alert(1)</script>").
Definition entry_script_operation : Entry :=
  mkEntry (lit "2024-05-01T10:00:00") (lit "<script>alert(1)</script>")
    (lit "Initial release").
(** An entry whose operation is markup with capital letters. *)
Definition entry_markup_operation : Entry :=
  mkEntry (lit "2024-05-01T10:00:00") (lit "<B>Created</B>")
    (lit "Initial release").
Definition entry_bad_timestamp : Entry :=
  mkEntry (lit "yesterday") (lit "Created") (lit "Initial release").

(** ** Sample data *)

Definition entry_a : Entry :=
  mkEntry (lit "2024-05-01T10:00:00") (lit "Created") (lit "Initial release").
Definition entry_b : Entry :=
  mkEntry (lit "2024-05-02T09:30:00.250000") (lit "Edited") (lit "Fixed typo").
Definition entry_c : Entry :=
  mkEntry (lit "2024-05-03T18:45:10") (lit "Deleted") (lit "Removed old API").

(** A text that ends in a lone surrogate, and an entry that holds it (as
    [json.load] returns it for the escape [\ud83d]). *)
Definition surrogate_text : pystr := lit "bad " ++ [55357%N].

(** A changelog file holding three entries, oldest first. *)
Definition sample_world : world :=
  mkWorld (Stored [entry_a; entry_b; entry_c]) [].

Definition sample_now : datetime := mkDatetime 2024 5 4 8 15 0 123456.

(** A window that shows the sample changelog, the second line clicked and a
    text typed in. *)
Definition sample_window : state :=
  mkState [entry_c; entry_b; entry_a] None (lit "Created") (lit "  Added export ")
    true (lit "Add Entry") false false
    (map display_str [entry_c; entry_b; entry_a]) [1] [].

(** ** Strings *)

Section StringFacts.

Lemma str_eqb_eq (a b : pystr) : str_eqb a b = true <-> a = b.
Proof.
  revert b; induction a as [|x a IH]; intros [|y b]; simpl;
    try (split; [discriminate | discriminate]); [tauto|].
  rewrite andb_true_iff, N.eqb_eq, IH.
  split; [intros [-> ->]; reflexivity | intros H; inversion H; auto].
Qed.

Lemma str_eqb_refl (a : pystr) : str_eqb a a = true.
Proof. apply str_eqb_eq; reflexivity. Qed.

Lemma str_eqb_neq (a b : pystr) : str_eqb a b = false <-> a <> b.
Proof.
  rewrite <- str_eqb_eq. destruct (str_eqb a b); split; intros; congruence.
Qed.

Lemma str_ltb_irrefl (a : pystr) : str_ltb a a = false.
Proof.
  induction a as [|x a IH]; simpl; [reflexivity|].
  rewrite N.ltb_irrefl, N.eqb_refl; exact IH.
Qed.

Lemma str_ltb_cons (x y : N) (a b : pystr) :
  str_ltb (x :: a) (y :: b) = true <->
  (x < y)%N \/ (x = y /\ str_ltb a b = true).
Proof.
  simpl. destruct (N.ltb_spec x y) as [Hlt|Hge].
  - split; auto.
  - destruct (N.eqb_spec x y) as [->|Hne].
    + split; [auto | intros [H|[_ H]]; [lia | exact H]].
    + split; [discriminate | intros [H|[H _]]; [lia | congruence]].
Qed.

Lemma str_ltb_trans (a b c : pystr) :
  str_ltb a b = true -> str_ltb b c = true -> str_ltb a c = true.
Proof.
  revert b c; induction a as [|x a IH]; intros [|y b] [|z c];
    try (simpl; congruence).
  rewrite !str_ltb_cons.
  intros [H1|[-> H1]] [H2|[-> H2]]; try (left; lia).
  right; split; [reflexivity | eapply IH; eassumption].
Qed.

(** The order is total: of two different strings one is below the other. *)
Lemma str_ltb_total (a b : pystr) :
  str_ltb a b = false -> a = b \/ str_ltb b a = true.
Proof.
  revert b; induction a as [|x a IH]; intros [|y b]; simpl; auto; try discriminate.
  destruct (N.ltb_spec x y) as [Hlt|Hge]; [discriminate|].
  destruct (N.eqb_spec x y) as [->|Hne].
  - rewrite N.ltb_irrefl, N.eqb_refl. intros H.
    destruct (IH _ H) as [->|H']; auto.
  - intros _. right.
    destruct (N.ltb_spec y x); [reflexivity | lia].
Qed.

Lemma str_ltb_asym (a b : pystr) :
  str_ltb a b = true -> str_ltb b a = false.
Proof.
  intros H. destruct (str_ltb b a) eqn:E; [|reflexivity].
  pose proof (str_ltb_trans _ _ _ H E) as Haa.
  rewrite str_ltb_irrefl in Haa; discriminate.
Qed.

Lemma str_geb_trans (a b c : pystr) :
  str_ltb a b = false -> str_ltb b c = false -> str_ltb a c = false.
Proof.
  intros Hab Hbc. destruct (str_ltb a c) eqn:Hac; [|reflexivity].
  destruct (str_ltb_total _ _ Hab) as [->|Hba]; [congruence|].
  pose proof (str_ltb_trans _ _ _ Hba Hac). congruence.
Qed.

(** [strip] leaves nothing exactly of the strings made of white space. *)
Lemma lstrip_nil (s : pystr) : lstrip s = [] <-> forallb isspace s = true.
Proof.
  induction s as [|c s IH]; simpl; [tauto|].
  destruct (isspace c); simpl; [exact IH | split; discriminate].
Qed.

Lemma strip_nil (s : pystr) : strip s = [] <-> forallb isspace s = true.
Proof.
  unfold strip, rstrip. rewrite <- lstrip_nil.
  split; intros H.
  - apply (f_equal (@rev N)) in H. rewrite rev_involutive in H. simpl in H.
    apply lstrip_nil in H. rewrite forallb_forall in H.
    destruct (lstrip s) as [|c r] eqn:E; [reflexivity|].
    assert (Hc : isspace c = true) by (apply H, in_rev; rewrite rev_involutive; left; reflexivity).
    clear H. exfalso.
    induction s as [|x s IH]; simpl in E; [discriminate|].
    destruct (isspace x) eqn:Ex; [auto | congruence].
  - rewrite H; reflexivity.
Qed.

End StringFacts.

(** ** The sort of [load_changelog] *)

Section SortFacts.

Lemma desc_trans (a b c : Entry) : desc a b -> desc b c -> desc a c.
Proof. unfold desc; apply str_geb_trans. Qed.

Lemma insert_desc_perm (e : Entry) (l : list Entry) :
  Permutation (e :: l) (insert_desc e l).
Proof.
  induction l as [|y ys IH]; simpl; [reflexivity|].
  destruct (str_ltb (timestamp e) (timestamp y)); [|reflexivity].
  rewrite perm_swap. constructor. exact IH.
Qed.

Lemma sort_desc_perm (l : list Entry) : Permutation l (sort_desc l).
Proof.
  induction l as [|x l IH]; simpl; [constructor|].
  rewrite <- insert_desc_perm. constructor. exact IH.
Qed.

Lemma insert_desc_sorted (e : Entry) (l : list Entry) :
  StronglySorted desc l -> StronglySorted desc (insert_desc e l).
Proof.
  induction 1 as [|y ys Hs IH Hy]; simpl.
  - repeat constructor.
  - destruct (str_ltb (timestamp e) (timestamp y)) eqn:E.
    + constructor; [exact IH|].
      rewrite <- insert_desc_perm. constructor; [|exact Hy].
      apply str_ltb_asym, E.
    + constructor; [constructor; assumption|].
      constructor; [exact E|].
      eapply Forall_impl; [|exact Hy].
      intros z Hz. eapply desc_trans; [exact E | exact Hz].
Qed.

Lemma sort_desc_sorted (l : list Entry) : StronglySorted desc (sort_desc l).
Proof.
  induction l as [|x l IH]; simpl; [constructor | apply insert_desc_sorted, IH].
Qed.

(** A list that is in order already is left as it is. *)
Lemma sort_desc_id (l : list Entry) : StronglySorted desc l -> sort_desc l = l.
Proof.
  induction 1 as [|x l Hs IH Hx]; simpl; [reflexivity|].
  rewrite IH. destruct Hx as [|y ys Hxy _]; simpl; [reflexivity|].
  unfold desc in Hxy; rewrite Hxy; reflexivity.
Qed.

(** Being in order depends on the timestamps only. *)
Lemma sorted_same_keys (l l' : list Entry) :
  map timestamp l = map timestamp l' ->
  StronglySorted desc l -> StronglySorted desc l'.
Proof.
  intros Hk Hs; revert l' Hk.
  induction Hs as [|x l Hs IH Hx]; intros [|x' l'] Hk; simpl in Hk;
    try discriminate; [constructor|].
  injection Hk as Hx' Hl'. constructor; [apply IH, Hl'|].
  clear IH Hs. revert l' Hl'.
  induction Hx as [|y ys Hxy _ IHf]; intros [|y' ys'] Hl'; simpl in Hl';
    try discriminate; constructor.
  - injection Hl' as Hy' _. unfold desc in *. rewrite <- Hx', <- Hy'; exact Hxy.
  - injection Hl' as _ Hys. apply IHf, Hys.
Qed.

Lemma sorted_filter (f : Entry -> bool) (l : list Entry) :
  StronglySorted desc l -> StronglySorted desc (filter f l).
Proof.
  induction 1 as [|x l Hs IH Hx]; simpl; [constructor|].
  destruct (f x); [|exact IH].
  constructor; [exact IH|].
  rewrite Forall_forall in *. intros y Hy.
  apply filter_In in Hy. apply Hx, Hy.
Qed.

(** In a sorted list an earlier position never holds the smaller key. *)
Lemma sorted_nth (l : list Entry) (i j : nat) (a b : Entry) :
  StronglySorted desc l ->
  nth_error l i = Some a -> nth_error l j = Some b -> i < j -> desc a b.
Proof.
  intros Hs; revert i j.
  induction Hs as [|x l Hs IH Hx]; intros i j Hi Hj Hlt.
  - destruct i; discriminate.
  - destruct j as [|j]; [lia|]. simpl in Hj.
    destruct i as [|i]; simpl in Hi.
    + injection Hi as ->. rewrite Forall_forall in Hx.
      apply Hx. eapply nth_error_In; eassumption.
    + eapply IH; [eassumption | eassumption | lia].
Qed.

End SortFacts.

(** ** Dates *)

Section DateFacts.




Lemma days_in_month_le (y m : N) : (days_in_month y m <= 31)%N.
Proof.
  unfold days_in_month.
  repeat match goal with |- context [if ?b then _ else _] => destruct b end; lia.
Qed.

Lemma valid_datetime_bounds (d : datetime) :
  valid_datetime d = true ->
  (year d < 10 ^ N.of_nat 4 /\ month d < 10 ^ N.of_nat 2 /\ day d < 10 ^ N.of_nat 2
   /\ hour d < 10 ^ N.of_nat 2 /\ minute d < 10 ^ N.of_nat 2
   /\ second d < 10 ^ N.of_nat 2 /\ microsecond d < 10 ^ N.of_nat 6)%N.
Proof.
  unfold valid_datetime. rewrite !andb_true_iff, !N.leb_le, !N.ltb_lt.
  pose proof (days_in_month_le (year d) (month d)).
  change (10 ^ N.of_nat 4)%N with 10000%N.
  change (10 ^ N.of_nat 2)%N with 100%N.
  change (10 ^ N.of_nat 6)%N with 1000000%N.
  lia.
Qed.


Lemma pad_encodable (width : nat) (n : N) : encodable (pad width n) = true.
Proof.
  induction width as [|w IH]; [reflexivity|]. cbn [pad encodable forallb].
  fold (encodable (pad w n)). rewrite IH, andb_true_r.
  unfold encodable_char. apply orb_true_iff. left. apply N.ltb_lt.
  pose proof (N.mod_lt (n / 10 ^ N.of_nat w) 10 ltac:(discriminate)). lia.
Qed.

(** The timestamp [add_entry] writes never stops the save. *)
Lemma isoformat_encodable (d : datetime) : encodable (isoformat d) = true.
Proof.
  unfold isoformat, encodable. rewrite !forallb_app.
  fold (encodable (pad 4 (year d))) (encodable (pad 2 (month d)))
       (encodable (pad 2 (day d))) (encodable (pad 2 (hour d)))
       (encodable (pad 2 (minute d))) (encodable (pad 2 (second d))).
  rewrite !pad_encodable. cbn [andb].
  destruct (microsecond d =? 0)%N; [reflexivity|].
  rewrite forallb_app. fold (encodable (pad 6 (microsecond d))).
  rewrite pad_encodable. reflexivity.
Qed.

Lemma writable_app (l1 l2 : list Entry) :
  writable (l1 ++ l2) = writable l1 && writable l2.
Proof. apply forallb_app. Qed.

Lemma writable_new_entry (es : list Entry) (now : datetime) (op txt : pystr) :
  writable es = true -> encodable op = true -> encodable txt = true ->
  writable (es ++ [mkEntry (isoformat now) op txt]) = true.
Proof.
  intros Hes Hop Htxt. rewrite writable_app, Hes. cbn [writable forallb andb].
  unfold encodable_entry. cbn [timestamp operation text].
  rewrite isoformat_encodable, Hop, Htxt. reflexivity.
Qed.

End DateFacts.

Section OrderFacts.

Lemma str_ltb_app_same (p a b : pystr) : str_ltb (p ++ a) (p ++ b) = str_ltb a b.
Proof.
  induction p as [|x p IH]; [reflexivity|].
  cbn [app str_ltb]. rewrite N.ltb_irrefl, N.eqb_refl. exact IH.
Qed.

(** Padded numbers compare as the numbers do. *)
Lemma str_ltb_pad (width : nat) (n m : N) (a b : pystr) :
  (n mod 10 ^ N.of_nat width < m mod 10 ^ N.of_nat width)%N ->
  str_ltb (pad width n ++ a) (pad width m ++ b) = true.
Proof.
  induction width as [|w IH]; intros Hlt.
  - change (10 ^ N.of_nat 0)%N with 1%N in Hlt. rewrite !N.mod_1_r in Hlt. lia.
  - rewrite Nat2N.inj_succ, N.pow_succ_r' in Hlt.
    rewrite (N.mul_comm 10 (10 ^ N.of_nat w)) in Hlt.
    rewrite !(N.Div0.mod_mul_r _ (10 ^ N.of_nat w) 10) in Hlt.
    assert (Hp : (0 < 10 ^ N.of_nat w)%N)
      by (apply N.neq_0_lt_0, N.pow_nonzero; discriminate).
    pose proof (N.mod_lt n (10 ^ N.of_nat w) ltac:(lia)) as Hn.
    pose proof (N.mod_lt m (10 ^ N.of_nat w) ltac:(lia)) as Hm.
    cbn [pad app]. apply str_ltb_cons.
    revert IH Hlt Hn Hm.
    generalize (n mod 10 ^ N.of_nat w)%N ((n / 10 ^ N.of_nat w) mod 10)%N
               (m mod 10 ^ N.of_nat w)%N ((m / 10 ^ N.of_nat w) mod 10)%N.
    generalize dependent (10 ^ N.of_nat w)%N.
    intros P HP rn dn rm dm IH Hlt Hn Hm.
    destruct (N.lt_trichotomy dn dm) as [H|[H|H]].
    + left; lia.
    + right. split; [lia|]. apply IH. subst dm. lia.
    + exfalso.
      assert (P * (dm + 1) <= P * dn)%N by (apply N.mul_le_mono_l; lia).
      lia.
Qed.

Lemma str_ltb_pad_small (width : nat) (n m : N) (a b : pystr) :
  (n < m)%N -> (m < 10 ^ N.of_nat width)%N ->
  str_ltb (pad width n ++ a) (pad width m ++ b) = true.
Proof.
  intros Hnm Hm. apply str_ltb_pad. rewrite !N.mod_small by lia. exact Hnm.
Qed.

(** On timestamps written by [add_entry] the order of strings is the order
    of time. *)
Lemma isoformat_increasing (a b : datetime) :
  valid_datetime a = true -> valid_datetime b = true ->
  datetime_lt a b -> str_ltb (isoformat a) (isoformat b) = true.
Proof.
  intros Ha Hb Hlt.
  destruct (valid_datetime_bounds a Ha) as (_ & _ & _ & _ & _ & _ & Hua).
  destruct (valid_datetime_bounds b Hb) as (Hy & Hm & Hd & Hh & Hmi & Hs & Hub).
  unfold isoformat.
  destruct Hlt as [H|[-> Hlt]]; [apply str_ltb_pad_small; assumption|].
  rewrite !str_ltb_app_same.
  destruct Hlt as [H|[-> Hlt]]; [apply str_ltb_pad_small; assumption|].
  rewrite !str_ltb_app_same.
  destruct Hlt as [H|[-> Hlt]]; [apply str_ltb_pad_small; assumption|].
  rewrite !str_ltb_app_same.
  destruct Hlt as [H|[-> Hlt]]; [apply str_ltb_pad_small; assumption|].
  rewrite !str_ltb_app_same.
  destruct Hlt as [H|[-> Hlt]]; [apply str_ltb_pad_small; assumption|].
  rewrite !str_ltb_app_same.
  destruct Hlt as [H|[-> Hlt]]; [apply str_ltb_pad_small; assumption|].
  rewrite !str_ltb_app_same.
  destruct (N.eqb_spec (microsecond b) 0) as [E|_]; [lia|].
  destruct (N.eqb_spec (microsecond a) 0) as [_|_]; [reflexivity|].
  rewrite str_ltb_app_same.
  rewrite <- (app_nil_r (pad 6 (microsecond a))), <- (app_nil_r (pad 6 (microsecond b))).
  apply str_ltb_pad_small; assumption.
Qed.

End OrderFacts.

(** ** The entry store *)

Section StoreFacts.

(** [load_changelog] changes nothing, and raises on an undecodable file
    only. *)
Lemma load_changelog_run (w : world) :
  load_changelog w =
  (if readable (changelog w) then Ok (entries_of (changelog w))
   else Raise (load_error (changelog w)), w).
Proof.
  unfold load_changelog, bind, read_changelog.
  destruct (changelog w); reflexivity.
Qed.

Lemma load_changelog_ok (w : world) (es : list Entry) :
  fst (load_changelog w) = Ok es ->
  load_changelog w = (Ok es, w) /\ es = entries_of (changelog w).
Proof.
  rewrite load_changelog_run. simpl.
  destruct (readable (changelog w)); intros H; [|discriminate].
  injection H as <-. split; reflexivity.
Qed.

Lemma loaded_sorted (w : world) (es : list Entry) :
  fst (load_changelog w) = Ok es -> StronglySorted desc es.
Proof.
  intros H. apply load_changelog_ok in H as [_ ->].
  destruct (changelog w); simpl; try constructor. apply sort_desc_sorted.
Qed.

(** Loading what was just saved in order gives it back. *)
Lemma load_saved (w : world) (es : list Entry) :
  StronglySorted desc es ->
  load_changelog (saved w es) = (Ok es, saved w es).
Proof.
  intros Hs. rewrite load_changelog_run. simpl. rewrite sort_desc_id; auto.
Qed.

Lemma save_changelog_run (w : world) (es : list Entry) :
  save_changelog es w =
  if writable es then (Ok tt, saved w es)
  else (Raise UnicodeEncodeError, truncated w).
Proof. reflexivity. Qed.

(** A function that ends in [save_changelog(entries)] and [return True]. *)
Lemma save_then_true (w : world) (es : list Entry) :
  (save_changelog es ;;; ret true) w = save_and_succeed w es.
Proof.
  unfold bind, save_and_succeed. rewrite save_changelog_run.
  destruct (writable es); reflexivity.
Qed.

Lemma save_and_succeed_ok (w : world) (es : list Entry) :
  writable es = true -> save_and_succeed w es = (Ok true, saved w es).
Proof. unfold save_and_succeed. intros ->. reflexivity. Qed.

Lemma save_and_succeed_raise (w : world) (es : list Entry) :
  writable es = false ->
  save_and_succeed w es = (Raise UnicodeEncodeError, truncated w).
Proof. unfold save_and_succeed. intros ->. reflexivity. Qed.

(** After a save that raised, the next load finds no entry. *)
Lemma load_truncated (w : world) :
  load_changelog (truncated w) = (Ok [], truncated w).
Proof. reflexivity. Qed.

Lemma update_first_found (ts op txt : pystr) (l1 : list Entry) (e : Entry)
      (l2 : list Entry) :
  (forall x, In x l1 -> timestamp x <> ts) -> timestamp e = ts ->
  update_first ts op txt (l1 ++ e :: l2) =
  (l1 ++ mkEntry (timestamp e) op txt :: l2, true).
Proof.
  intros Hl1 He. induction l1 as [|x l1 IH]; simpl.
  - rewrite He, str_eqb_refl. reflexivity.
  - assert (Hx : str_eqb (timestamp x) ts = false)
      by (apply str_eqb_neq, Hl1; left; reflexivity).
    rewrite Hx, IH; [reflexivity|].
    intros y Hy; apply Hl1; right; exact Hy.
Qed.

Lemma update_first_missing (ts op txt : pystr) (es : list Entry) :
  (forall x, In x es -> timestamp x <> ts) ->
  update_first ts op txt es = (es, false).
Proof.
  induction es as [|x es IH]; intros H; simpl; [reflexivity|].
  assert (Hx : str_eqb (timestamp x) ts = false)
    by (apply str_eqb_neq, H; left; reflexivity).
  rewrite Hx, IH; [reflexivity|].
  intros y Hy; apply H; right; exact Hy.
Qed.

(** Either some entry is the first with the timestamp, or none has it. *)
Lemma first_match (ts : pystr) (es : list Entry) :
  (exists l1 e l2, es = l1 ++ e :: l2 /\ timestamp e = ts /\
                   forall x, In x l1 -> timestamp x <> ts)
  \/ (forall x, In x es -> timestamp x <> ts).
Proof.
  induction es as [|x es IH].
  - right; intros x [].
  - destruct (str_eqb (timestamp x) ts) eqn:E.
    + left. exists [], x, es. apply str_eqb_eq in E.
      split; [reflexivity | split; [exact E | intros y []]].
    + apply str_eqb_neq in E. destruct IH as [(l1 & e & l2 & -> & He & Hl1)|Hnone].
      * left. exists (x :: l1), e, l2.
        split; [reflexivity | split; [exact He|]].
        intros y [<-|Hy]; auto.
      * right. intros y [<-|Hy]; auto.
Qed.

Lemma filter_length_same (f : Entry -> bool) (l : list Entry) :
  length (filter f l) = length l <-> forall x, In x l -> f x = true.
Proof.
  induction l as [|x l IH]; simpl; [tauto|].
  pose proof (filter_length_le f l) as Hle.
  destruct (f x) eqn:E; simpl.
  - split.
    + intros H y [<-|Hy]; auto. apply IH; [lia | exact Hy].
    + intros H. f_equal. apply IH. auto.
  - split; [lia|]. intros H. specialize (H x (or_introl eq_refl)). congruence.
Qed.

Lemma filter_all (f : Entry -> bool) (l : list Entry) :
  (forall x, In x l -> f x = true) -> filter f l = l.
Proof.
  induction l as [|x l IH]; intros H; simpl; [reflexivity|].
  rewrite (H x (or_introl eq_refl)), IH; auto.
  intros y Hy; apply H; right; exact Hy.
Qed.

End StoreFacts.

(** ** Properties of the entry store *)

(** C1 fails on the code: a changelog file that exists but whose bytes are
    not UTF-8 text is a corrupt document on which [load_changelog] raises
    UnicodeDecodeError instead of returning the empty list. *)
Lemma load_changelog_undecodable_raises :
  fst (load_changelog (mkWorld Undecodable [])) = Raise UnicodeDecodeError /\
  ~ (exists es, fst (load_changelog (mkWorld Undecodable [])) = Ok es).
Proof.
  split; [reflexivity|]. intros [es H]. discriminate H.
Qed.

(** The two cases [load_changelog] does treat: when the changelog file does
    not exist, and when [json.load] raises JSONDecodeError on it, the empty
    list is returned and the world is left as it was. *)
Lemma load_changelog_fail_soft (tr : list event) :
  load_changelog (mkWorld Missing tr) = (Ok [], mkWorld Missing tr) /\
  load_changelog (mkWorld NotJson tr) = (Ok [], mkWorld NotJson tr).
Proof. split; reflexivity. Qed.







(** C4: a text that is empty once stripped is rejected by [add_entry] and by
    [edit_entry] alike, whatever the operation: the input warning is shown,
    [False] is returned, the changelog file is not written and a load
    before and after gives the same. *)
Theorem blank_text_rejected
        (w : world) (now : datetime) (ts op txt : pystr) :
  strip txt = [] ->
  add_entry now op txt w = (Ok false, after w [empty_text_warning]) /\
  edit_entry ts op txt w = (Ok false, after w [empty_text_warning]) /\
  changelog (after w [empty_text_warning]) = changelog w /\
  fst (load_changelog (after w [empty_text_warning])) = fst (load_changelog w).
Proof.
  intros Hblank. unfold add_entry, edit_entry. rewrite Hblank.
  split; [reflexivity | split; [reflexivity | split; [reflexivity|]]].
  rewrite !load_changelog_run. reflexivity.
Qed.

Lemma blank_text_rejected_witness :
  strip (lit "   ") = [] /\
  add_entry sample_now (lit "Created") (lit "   ") sample_world
  = (Ok false, after sample_world [empty_text_warning]) /\
  add_entry sample_now (lit "Created") (lit "") sample_world
  = (Ok false, after sample_world [empty_text_warning]).
Proof.
  split; [reflexivity|]. split.
  - exact (proj1 (blank_text_rejected sample_world sample_now []
                    (lit "Created") (lit "   ") eq_refl)).
  - exact (proj1 (blank_text_rejected sample_world sample_now []
                    (lit "Created") (lit "") eq_refl)).
Defined.

(** C5: what [load_changelog] returns is sorted by timestamp, largest first:
    it holds the stored entries, no entry comes before one with a larger
    timestamp, and of two entries with timestamps [t1 > t2] the one with
    [t1] stands at the earlier position.  Timestamps are compared as
    strings; on those [add_entry] writes this is the order of time. *)
Theorem load_changelog_sorted (w : world) (es : list Entry) :
  fst (load_changelog w) = Ok es ->
  StronglySorted desc es /\
  (forall stored, changelog w = Stored stored -> Permutation stored es) /\
  (forall i j e1 e2,
      nth_error es i = Some e1 -> nth_error es j = Some e2 ->
      str_ltb (timestamp e2) (timestamp e1) = true -> i < j) /\
  (forall a b,
      valid_datetime a = true -> valid_datetime b = true -> datetime_lt a b ->
      str_ltb (isoformat a) (isoformat b) = true).
Proof.
  intros Hload. pose proof (loaded_sorted _ Hload) as Hsorted.
  apply load_changelog_ok in Hload as [_ Hes].
  split; [exact Hsorted | split; [|split; [|exact isoformat_increasing]]].
  - intros stored Hst. rewrite Hes, Hst. apply sort_desc_perm.
  - intros i j e1 e2 Hi Hj Hlt.
    destruct (Nat.lt_trichotomy i j) as [H|[H|H]]; [exact H | |].
    + subst j. rewrite Hi in Hj. injection Hj as ->.
      rewrite str_ltb_irrefl in Hlt. discriminate.
    + pose proof (sorted_nth Hsorted Hj Hi H) as Hd.
      unfold desc in Hd. congruence.
Qed.

Lemma load_changelog_sorted_witness :
  fst (load_changelog sample_world) = Ok [entry_c; entry_b; entry_a] /\
  StronglySorted desc [entry_c; entry_b; entry_a].
Proof.
  split; [reflexivity|].
  exact (proj1 (load_changelog_sorted sample_world
                  (es := [entry_c; entry_b; entry_a]) eq_refl)).
Defined.




(** ** Escaping *)

Section EscapeFacts.

Lemma replace_char_app (old : N) (new a b : pystr) :
  replace_char old new (a ++ b) = replace_char old new a ++ replace_char old new b.
Proof. unfold replace_char. apply flat_map_app. Qed.

Lemma html_escape_app (a b : pystr) :
  html_escape (a ++ b) = html_escape a ++ html_escape b.
Proof. unfold html_escape. rewrite !replace_char_app. reflexivity. Qed.

Lemma html_escape_one (c : N) : html_escape [c] = escape_char c.
Proof.
  unfold html_escape, escape_char.
  destruct (N.eqb_spec c 38) as [->|H1]; [reflexivity|].
  destruct (N.eqb_spec c 60) as [->|H2]; [reflexivity|].
  destruct (N.eqb_spec c 62) as [->|H3]; [reflexivity|].
  destruct (N.eqb_spec c 34) as [->|H4]; [reflexivity|].
  destruct (N.eqb_spec c 39) as [->|H5]; [reflexivity|].
  unfold replace_char. cbn [flat_map app].
  repeat match goal with
         | |- context [N.eqb c ?k] =>
             destruct (N.eqb_spec c k); [contradiction|]; cbn [flat_map app]
         end.
  reflexivity.
Qed.

(** [html.escape] works character by character. *)
Lemma html_escape_chars (s : pystr) : html_escape s = flat_map escape_char s.
Proof.
  induction s as [|c s IH]; [reflexivity|].
  change (c :: s) with ([c] ++ s).
  rewrite html_escape_app, html_escape_one, IH. reflexivity.
Qed.

Lemma escaped_escape_char (c : N) (rest : pystr) :
  escaped rest = true -> escaped (escape_char c ++ rest) = true.
Proof.
  intros Hrest. unfold escape_char.
  destruct (N.eqb_spec c 38) as [->|H1]; [cbn; exact Hrest|].
  destruct (N.eqb_spec c 60) as [->|H2]; [cbn; exact Hrest|].
  destruct (N.eqb_spec c 62) as [->|H3]; [cbn; exact Hrest|].
  destruct (N.eqb_spec c 34) as [->|H4]; [cbn; exact Hrest|].
  destruct (N.eqb_spec c 39) as [->|H5]; [cbn; exact Hrest|].
  cbn [app escaped]. unfold markup_char.
  repeat match goal with
         | |- context [N.eqb c ?k] => destruct (N.eqb_spec c k); [contradiction|]
         end.
  exact Hrest.
Qed.

Lemma html_escape_escaped (s : pystr) : escaped (html_escape s) = true.
Proof.
  rewrite html_escape_chars.
  induction s as [|c s IH]; [reflexivity|].
  cbn [flat_map]. apply escaped_escape_char, IH.
Qed.

Lemma escaped_no_markup (s : pystr) (c : N) :
  escaped s = true -> In c s -> markup_char c = false.
Proof.
  induction s as [|x s IH]; [intros _ []|].
  intros Hs [<-|Hc]; cbn [escaped] in Hs;
    apply andb_true_iff in Hs as [Hx Hs']; [|auto].
  destruct (N.eqb_spec x 38) as [->|_]; [reflexivity|].
  apply negb_true_iff, Hx.
Qed.

Lemma prefixb_app (p s : pystr) :
  prefixb p s = true -> exists rest, s = p ++ rest.
Proof.
  revert s; induction p as [|x p IH]; intros s H.
  - exists s; reflexivity.
  - destruct s as [|y s]; [discriminate|]. cbn [prefixb] in H.
    apply andb_true_iff in H as [Hxy Hp]. apply N.eqb_eq in Hxy as ->.
    destruct (IH _ Hp) as [rest ->]. exists rest; reflexivity.
Qed.

Lemma escaped_ampersand (s pre post : pystr) :
  escaped s = true -> s = pre ++ 38%N :: post ->
  exists name rest, In name entity_names /\ post = name ++ rest.
Proof.
  intros Hs ->. induction pre as [|x pre IH]; cbn [app escaped] in Hs;
    apply andb_true_iff in Hs as [Hx Hs']; [|auto].
  rewrite N.eqb_refl in Hx. apply existsb_exists in Hx as (name & Hin & Hp).
  destruct (prefixb_app _ _ Hp) as [rest ->]. exists name, rest; auto.
Qed.

End EscapeFacts.

(** ** Substrings *)

Section OccursFacts.

Lemma occurs_in_app (sub a s b : pystr) :
  occurs_in sub s -> occurs_in sub (a ++ s ++ b).
Proof.
  intros (pre & post & ->). exists (a ++ pre), (post ++ b).
  rewrite <- !app_assoc. reflexivity.
Qed.

Lemma occurs_in_concat (sub s : pystr) (l : list pystr) :
  In s l -> occurs_in sub s -> occurs_in sub (concat l).
Proof.
  intros Hin Hs. apply in_split in Hin as (l1 & l2 & ->).
  rewrite concat_app. cbn [concat]. rewrite <- (app_nil_l (concat l1)).
  rewrite <- !app_assoc. cbn [app].
  apply (occurs_in_app (concat l1) (concat l2) Hs).
Qed.

Lemma text_span_in_entry_html (op_class operation safe_text formatted_date : pystr) :
  occurs_in (text_span safe_text)
            (entry_html op_class operation safe_text formatted_date).
Proof.
  unfold entry_html, text_span.
  exists (nl ++ indent8 ++ lit "<div class=" ++ dq ++ lit "entry" ++ dq ++ lit ">" ++ nl
          ++ indent12 ++ lit "<span class=" ++ dq ++ lit "tag " ++ op_class ++ dq
          ++ lit ">" ++ operation ++ lit "</span>" ++ nl ++ indent12),
         (nl ++ indent12 ++ lit "<span class=" ++ dq ++ lit "date" ++ dq ++ lit ">"
          ++ formatted_date ++ lit "</span>" ++ nl ++ indent8 ++ lit "</div>" ++ nl
          ++ indent8).
  rewrite <- !app_assoc. reflexivity.
Qed.

Lemma tag_span_in_entry_html (op_class operation safe_text formatted_date : pystr) :
  occurs_in (tag_span op_class operation)
            (entry_html op_class operation safe_text formatted_date).
Proof.
  unfold entry_html, tag_span.
  exists (nl ++ indent8 ++ lit "<div class=" ++ dq ++ lit "entry" ++ dq ++ lit ">" ++ nl
          ++ indent12),
         (nl ++ indent12 ++ lit "<span class=" ++ dq ++ lit "text" ++ dq ++ lit ">"
          ++ safe_text ++ lit "</span>" ++ nl
          ++ indent12 ++ lit "<span class=" ++ dq ++ lit "date" ++ dq ++ lit ">"
          ++ formatted_date ++ lit "</span>" ++ nl ++ indent8 ++ lit "</div>" ++ nl
          ++ indent8).
  rewrite <- !app_assoc. reflexivity.
Qed.

End OccursFacts.

(** ** The report renderer *)

Section RendererFacts.

Variable str_lower : pystr -> pystr.
Variable fromisoformat : pystr -> option datetime.
Variable strftime : datetime -> pystr.

Local Abbreviation parse_ok := (parses fromisoformat).
Local Abbreviation block := (rendered_block str_lower fromisoformat strftime).
Local Abbreviation document_of := (report str_lower fromisoformat strftime).
Local Abbreviation exported := (export_events str_lower fromisoformat strftime).
Local Abbreviation export := (generate_html_file str_lower fromisoformat strftime).

(** The loop adds one block per entry when all timestamps parse. *)
Lemma render_entries_ok (es : list Entry) (acc : pystr) (w : world) :
  forallb parse_ok es = true ->
  render_entries str_lower fromisoformat strftime es acc w =
  (Ok (acc ++ concat (map block es)), w).
Proof.
  revert acc. induction es as [|e es IH]; intros acc Hall.
  - cbn. rewrite app_nil_r. reflexivity.
  - cbn [forallb] in Hall. apply andb_true_iff in Hall as [He Hes].
    cbn [render_entries map concat]. unfold bind, entry_block.
    unfold rendered_block, parses in *.
    destruct (fromisoformat (timestamp e)); [|discriminate].
    cbn [ret]. rewrite IH by exact Hes. rewrite <- app_assoc. reflexivity.
Qed.

(** The loop raises at the first timestamp that does not parse. *)
Lemma render_entries_raise (es : list Entry) (acc : pystr) (w : world) :
  forallb parse_ok es = false ->
  render_entries str_lower fromisoformat strftime es acc w = (Raise ValueError, w).
Proof.
  revert acc. induction es as [|e es IH]; intros acc Hall; [discriminate|].
  cbn [forallb] in Hall. cbn [render_entries]. unfold bind, entry_block.
  unfold parses in *.
  destruct (fromisoformat (timestamp e)); [|reflexivity].
  cbn [ret]. apply IH. exact Hall.
Qed.

(** Every run of [generate_html_file] on a readable changelog. *)
Lemma generate_html_file_run
      (answer : pystr) (write_failure : option pystr) (w : world)
      (es : list Entry) :
  fst (load_changelog w) = Ok es ->
  export answer write_failure w =
  match es with
  | [] => (Ok tt, after w [nothing_to_export])
  | _ :: _ =>
      if forallb parse_ok es then
        if truthy answer then
          match write_failure with
          | None => (Ok tt, after w (exported answer es))
          | Some e =>
              (Ok tt,
               after w [asksaveasfilename answer;
                        showerror (lit "Error")
                          (lit "Failed to save HTML file: " ++ e)])
          end
        else (Ok tt, after w [asksaveasfilename answer])
      else (Raise ValueError, w)
  end.
Proof.
  intros Hload. apply load_changelog_ok in Hload as [Hload _].
  unfold generate_html_file. unfold bind at 1.
  rewrite Hload. destruct es as [|e es]; [reflexivity|].
  unfold bind at 1.
  destruct (forallb parse_ok (e :: es)) eqn:Hall.
  - rewrite (render_entries_ok _ _ _ Hall). cbn [app].
    unfold bind, emit, after; cbn [changelog trace].
    destruct (truthy answer); cbn [negb]; [|reflexivity].
    destruct write_failure; cbn [changelog trace];
      rewrite <- ?app_assoc; reflexivity.
  - rewrite (render_entries_raise _ _ _ Hall). reflexivity.
Qed.

(** [ascii_lower] leaves no capital letter. *)
Lemma ascii_lower_no_capital (s : pystr) (c : N) :
  In c (ascii_lower s) -> ((65 <=? c) && (c <=? 90))%N = false.
Proof.
  unfold ascii_lower. intros H. apply in_map_iff in H as (x & <- & _).
  destruct ((65 <=? x) && (x <=? 90))%N eqn:E; [|exact E].
  apply andb_true_iff in E as [E1 E2].
  apply N.leb_le in E1, E2. apply andb_false_iff. right.
  apply N.leb_gt. lia.
Qed.

Lemma rendered_block_in_report (sub : pystr) (e : Entry) (es : list Entry) :
  In e es -> occurs_in sub (block e) -> occurs_in sub (document_of es).
Proof.
  intros Hin Hsub. unfold report, html_template.
  apply occurs_in_app. eapply occurs_in_concat; [|exact Hsub].
  apply in_map. exact Hin.
Qed.

(** C7: in every report written, the text of each entry stands in its span
    in escaped form: the escaped text has no angle bracket and no quote, and
    each of its ampersands starts a character reference, so the text adds no
    markup.  The text [<script>alert(1)</script>] comes out as
    [&lt;script&gt;alert(1)&lt;/script&gt;], and the document has no
    [<script>] in it. *)
Theorem report_text_escaped (w : world) (es : list Entry) (answer : pystr) :
  fst (load_changelog w) = Ok es -> es <> [] ->
  forallb parse_ok es = true -> truthy answer = true ->
  export answer None w = (Ok tt, after w (exported answer es)) /\
  (forall e, In e es ->
     occurs_in (text_span (html_escape (text e))) (document_of es) /\
     escaped (html_escape (text e)) = true /\
     (forall c, In c (html_escape (text e)) -> markup_char c = false) /\
     (forall pre post, html_escape (text e) = pre ++ 38%N :: post ->
        exists name rest, In name entity_names /\ post = name ++ rest)) /\
  (let doc := report ascii_lower parse_isoformat format_ymd_hms [entry_script_text] in
   html_escape (text entry_script_text) = lit "&lt;script&gt;alert(1)&lt;/script&gt;" /\
   containsb (lit "&lt;script&gt;alert(1)&lt;/script&gt;") doc = true /\
   containsb (lit "<script>") doc = false).
Proof.
  intros Hload Hne Hall Hans. split; [|split].
  - rewrite (generate_html_file_run answer None w Hload).
    destruct es as [|e es]; [contradiction|]. rewrite Hall, Hans. reflexivity.
  - intros e He.
    pose proof (html_escape_escaped (text e)) as Hesc.
    split; [|split; [exact Hesc | split]].
    + eapply rendered_block_in_report; [exact He|].
      unfold rendered_block. unfold parses in Hall.
      rewrite forallb_forall in Hall. specialize (Hall e He).
      destruct (fromisoformat (timestamp e)); [|discriminate].
      apply text_span_in_entry_html.
    + intros c Hc. exact (escaped_no_markup _ _ Hesc Hc).
    + intros pre post Heq. exact (escaped_ampersand _ _ Hesc Heq).
  - vm_compute. repeat split.
Qed.

(** C8: when the loaded list is empty, [generate_html_file] shows the
    message that there is nothing to export and returns; it asks for no file
    name and writes no report. *)
Theorem empty_changelog_not_exported
        (w : world) (answer : pystr) (write_failure : option pystr) :
  fst (load_changelog w) = Ok [] ->
  export answer write_failure w = (Ok tt, after w [nothing_to_export]).
Proof.
  intros Hload. rewrite (generate_html_file_run answer write_failure w Hload).
  reflexivity.
Qed.

(** C9: the operation of each entry is put into the report as it is, once
    lower-cased as a class name and once as the label of the tag, without
    escaping; only the text goes through [html.escape].  Where [str.lower]
    is the lower-casing of ASCII letters, as it is on every operation of
    ASCII characters, the class name is the operation with [A] to [Z]
    replaced by [a] to [z] and holds no capital letter, while the label
    keeps its capitals.  An operation [<script>alert(1)</script>] therefore
    stands in the document as markup, an operation [<B>Created</B>] gives the
    class [<b>created</b>] and the label [<B>Created</B>], and the three
    operations of the form give the three classes of the style sheet. *)
Theorem report_operation_verbatim (w : world) (es : list Entry) (answer : pystr) :
  fst (load_changelog w) = Ok es -> es <> [] ->
  forallb parse_ok es = true -> truthy answer = true ->
  export answer None w = (Ok tt, after w (exported answer es)) /\
  (forall e, In e es ->
     occurs_in (tag_span (str_lower (operation e)) (operation e)) (document_of es) /\
     occurs_in (text_span (html_escape (text e))) (document_of es)) /\
  ((forall s, is_ascii s = true -> str_lower s = ascii_lower s) ->
   forall e, In e es -> is_ascii (operation e) = true ->
     occurs_in (tag_span (ascii_lower (operation e)) (operation e)) (document_of es) /\
     (forall c, In c (ascii_lower (operation e)) ->
                ((65 <=? c) && (c <=? 90))%N = false)) /\
  (let doc :=
     report ascii_lower parse_isoformat format_ymd_hms [entry_script_operation] in
   containsb (tag_span (lit "<script>alert(1)</script>")
                (lit "<script>alert(1)</script>")) doc = true) /\
  (let doc :=
     report ascii_lower parse_isoformat format_ymd_hms [entry_markup_operation] in
   containsb (tag_span (lit "<b>created</b>") (lit "<B>Created</B>")) doc = true /\
   containsb (tag_span (lit "<B>Created</B>") (lit "<B>Created</B>")) doc = false /\
   containsb (lit "&lt;B&gt;") doc = false) /\
  (map ascii_lower OPERATIONS = [lit "created"; lit "edited"; lit "deleted"] /\
   forallb (fun op => containsb (lit ".tag." ++ ascii_lower op ++ lit "{") html_head)
     OPERATIONS = true).
Proof.
  intros Hload Hne Hall Hans.
  assert (Hspans : forall e, In e es ->
            occurs_in (tag_span (str_lower (operation e)) (operation e))
              (document_of es) /\
            occurs_in (text_span (html_escape (text e))) (document_of es)).
  { intros e He. unfold parses in Hall.
    rewrite forallb_forall in Hall. pose proof (Hall e He) as Hp.
    split; (eapply rendered_block_in_report; [exact He|]); unfold rendered_block;
      destruct (fromisoformat (timestamp e)); try discriminate.
    + apply tag_span_in_entry_html.
    + apply text_span_in_entry_html. }
  split; [|split; [exact Hspans | split; [|split; [|split]]]].
  - rewrite (generate_html_file_run answer None w Hload).
    destruct es as [|e es]; [contradiction|]. rewrite Hall, Hans. reflexivity.
  - intros Hlower e He Hascii. split.
    + rewrite <- (Hlower _ Hascii). exact (proj1 (Hspans e He)).
    + intros c Hc. apply ascii_lower_no_capital in Hc. exact Hc.
  - vm_compute. reflexivity.
  - vm_compute. repeat split.
  - vm_compute. split; reflexivity.
Qed.

(** C10: [generate_html_file] builds the blocks only if every timestamp
    parses.  If the timestamp of some loaded entry does not, the ValueError
    of [fromisoformat] leaves the function: no message is shown, no file
    name is asked for and no report is written.  If all parse, the function
    returns. *)
Theorem unparsable_timestamp_raises
        (w : world) (es : list Entry) (answer : pystr)
        (write_failure : option pystr) :
  fst (load_changelog w) = Ok es ->
  ((exists e, In e es /\ fromisoformat (timestamp e) = None) ->
   export answer write_failure w = (Raise ValueError, w)) /\
  ((forall e, In e es -> fromisoformat (timestamp e) <> None) ->
   fst (export answer write_failure w) = Ok tt).
Proof.
  intros Hload. rewrite (generate_html_file_run answer write_failure w Hload).
  split.
  - intros (e & He & Hnone).
    assert (Hall : forallb parse_ok es = false).
    { destruct (forallb parse_ok es) eqn:E; [|reflexivity].
      rewrite forallb_forall in E. specialize (E e He).
      unfold parses in E. rewrite Hnone in E. discriminate. }
    rewrite Hall. destruct es as [|x es]; [destruct He | reflexivity].
  - intros Hparse.
    assert (Hall : forallb parse_ok es = true).
    { apply forallb_forall. intros e He. specialize (Hparse e He).
      unfold parses. destruct (fromisoformat (timestamp e)); congruence. }
    rewrite Hall. destruct es as [|x es]; [reflexivity|].
    destruct (truthy answer); [destruct write_failure|]; reflexivity.
Qed.

End RendererFacts.

Lemma report_text_escaped_witness :
  let w := mkWorld (Stored [entry_script_text]) [] in
  fst (load_changelog w) = Ok [entry_script_text] /\
  [entry_script_text] <> [] /\
  forallb (parses parse_isoformat) [entry_script_text] = true /\
  truthy (lit "changelog.html") = true /\
  generate_html_file ascii_lower parse_isoformat format_ymd_hms
    (lit "changelog.html") None w
  = (Ok tt,
     after w (export_events ascii_lower parse_isoformat format_ymd_hms
                (lit "changelog.html") [entry_script_text])).
Proof.
  cbv zeta.
  split; [reflexivity | split; [discriminate | split; [reflexivity | split; [reflexivity|]]]].
  refine (proj1 (report_text_escaped ascii_lower parse_isoformat format_ymd_hms
                   (mkWorld (Stored [entry_script_text]) [])
                   (es := [entry_script_text]) (lit "changelog.html")
                   eq_refl _ eq_refl eq_refl)).
  discriminate.
Defined.

Lemma empty_changelog_not_exported_witness :
  fst (load_changelog (mkWorld Missing [])) = Ok [] /\
  generate_html_file ascii_lower parse_isoformat format_ymd_hms
    (lit "changelog.html") None (mkWorld Missing [])
  = (Ok tt, after (mkWorld Missing []) [nothing_to_export]).
Proof.
  split; [reflexivity|].
  exact (empty_changelog_not_exported ascii_lower parse_isoformat format_ymd_hms
           (mkWorld Missing []) (lit "changelog.html") None eq_refl).
Defined.

Lemma report_operation_verbatim_witness :
  let w := mkWorld (Stored [entry_markup_operation]) [] in
  fst (load_changelog w) = Ok [entry_markup_operation] /\
  [entry_markup_operation] <> [] /\
  forallb (parses parse_isoformat) [entry_markup_operation] = true /\
  truthy (lit "changelog.html") = true /\
  generate_html_file ascii_lower parse_isoformat format_ymd_hms
    (lit "changelog.html") None w
  = (Ok tt,
     after w (export_events ascii_lower parse_isoformat format_ymd_hms
                (lit "changelog.html") [entry_markup_operation])) /\
  (forall s, is_ascii s = true -> ascii_lower s = ascii_lower s) /\
  is_ascii (operation entry_markup_operation) = true /\
  occurs_in (tag_span (lit "<b>created</b>") (lit "<B>Created</B>"))
    (report ascii_lower parse_isoformat format_ymd_hms [entry_markup_operation]).
Proof.
  cbv zeta.
  assert (Hne : [entry_markup_operation] <> []) by discriminate.
  split; [reflexivity | split; [exact Hne | split; [reflexivity |
    split; [reflexivity|]]]].
  split; [|split; [reflexivity | split; [reflexivity|]]].
  - exact (proj1 (report_operation_verbatim ascii_lower parse_isoformat format_ymd_hms
                    (mkWorld (Stored [entry_markup_operation]) [])
                    (es := [entry_markup_operation]) (lit "changelog.html")
                    eq_refl Hne eq_refl eq_refl)).
  - exact (proj1 (proj1 (proj2 (proj2
             (report_operation_verbatim ascii_lower parse_isoformat format_ymd_hms
                (mkWorld (Stored [entry_markup_operation]) [])
                (es := [entry_markup_operation]) (lit "changelog.html")
                eq_refl Hne eq_refl eq_refl)))
             (fun s _ => eq_refl) entry_markup_operation (or_introl eq_refl)
             eq_refl)).
Defined.

Lemma unparsable_timestamp_raises_witness :
  let w := mkWorld (Stored [entry_a; entry_bad_timestamp]) [] in
  fst (load_changelog w) = Ok [entry_bad_timestamp; entry_a] /\
  (exists e, In e [entry_bad_timestamp; entry_a] /\
             parse_isoformat (timestamp e) = None) /\
  generate_html_file ascii_lower parse_isoformat format_ymd_hms
    (lit "changelog.html") None w
  = (Raise ValueError, w).
Proof.
  cbv zeta.
  assert (Hbad : exists e, In e [entry_bad_timestamp; entry_a] /\
                           parse_isoformat (timestamp e) = None)
    by (exists entry_bad_timestamp; split; [left; reflexivity | reflexivity]).
  split; [reflexivity | split; [exact Hbad|]].
  exact (proj1 (unparsable_timestamp_raises ascii_lower parse_isoformat
                  format_ymd_hms
                  (mkWorld (Stored [entry_a; entry_bad_timestamp]) [])
                  (es := [entry_bad_timestamp; entry_a])
                  (lit "changelog.html") None eq_refl) Hbad).
Defined.

(** ** More on the sort *)

Unset Implicit Arguments.

Section SortMore.

(** Filtering commutes with inserting into a sorted list. *)
Lemma filter_insert_desc (p : Entry -> bool) (e : Entry) (l : list Entry) :
  StronglySorted desc l ->
  filter p (insert_desc e l) =
  if p e then insert_desc e (filter p l) else filter p l.
Proof.
  induction 1 as [|y ys Hs IH Hy]; cbn [insert_desc filter].
  - destruct (p e); reflexivity.
  - destruct (str_ltb (timestamp e) (timestamp y)) eqn:E; cbn [filter].
    + rewrite IH. destruct (p y), (p e); cbn [insert_desc]; rewrite ?E; reflexivity.
    + destruct (p e) eqn:Pe; [|reflexivity].
      destruct (p y) eqn:Py; cbn [insert_desc]; [rewrite E; reflexivity|].
      clear IH. induction ys as [|z zs IHz]; cbn [filter insert_desc]; [reflexivity|].
      inversion Hy as [|? ? Hyz Hy']; subst. inversion Hs as [|? ? Hs' Hz]; subst.
      destruct (p z) eqn:Pz; cbn [insert_desc].
      * assert (Ez : str_ltb (timestamp e) (timestamp z) = false)
          by (eapply str_geb_trans; [exact E | exact Hyz]).
        rewrite Ez. reflexivity.
      * apply IHz; assumption.
Qed.

Lemma filter_sort_desc (p : Entry -> bool) (l : list Entry) :
  filter p (sort_desc l) = sort_desc (filter p l).
Proof.
  induction l as [|x l IH]; [reflexivity|].
  cbn [sort_desc fold_right filter]. fold (sort_desc l).
  rewrite filter_insert_desc by apply sort_desc_sorted.
  rewrite IH. destruct (p x); reflexivity.
Qed.

(** Entries that all carry one timestamp are in order as they stand. *)
Lemma same_timestamp_sorted (ts : pystr) (l : list Entry) :
  (forall x, In x l -> timestamp x = ts) -> StronglySorted desc l.
Proof.
  induction l as [|x l IH]; intros H; constructor.
  - apply IH. intros y Hy. apply H. right; exact Hy.
  - apply Forall_forall. intros y Hy. unfold desc.
    rewrite (H x (or_introl eq_refl)), (H y (or_intror Hy)).
    apply str_ltb_irrefl.
Qed.

End SortMore.

(** ** Running the store operations *)

Section StoreRuns.

Lemma add_entry_run (w : world) (now : datetime) (op txt : pystr)
      (es : list Entry) :
  truthy (strip txt) = true -> fst (load_changelog w) = Ok es ->
  add_entry now op txt w =
  save_and_succeed w (es ++ [mkEntry (isoformat now) op txt]).
Proof.
  intros Htxt Hload. apply load_changelog_ok in Hload as [Hload _].
  unfold add_entry. rewrite Htxt. cbn [negb]. unfold bind at 1.
  rewrite Hload. apply save_then_true.
Qed.

Lemma edit_entry_run (w : world) (ts op txt : pystr) (es : list Entry) :
  truthy (strip txt) = true -> fst (load_changelog w) = Ok es ->
  edit_entry ts op txt w =
  if snd (update_first ts op txt es)
  then save_and_succeed w (fst (update_first ts op txt es))
  else (Ok false, after w [edit_not_found]).
Proof.
  intros Htxt Hload. apply load_changelog_ok in Hload as [Hload _].
  unfold edit_entry. rewrite Htxt. cbn [negb]. unfold bind at 1.
  rewrite Hload. destruct (update_first ts op txt es) as [es' [|]];
    [apply save_then_true | reflexivity].
Qed.

Lemma delete_entry_run (w : world) (ts : pystr) (es : list Entry) :
  fst (load_changelog w) = Ok es ->
  delete_entry ts w =
  let keep := filter (fun e => negb (str_eqb (timestamp e) ts)) es in
  if Nat.eqb (length es) (length keep)
  then (Ok false, after w [delete_not_found])
  else save_and_succeed w keep.
Proof.
  intros Hload. apply load_changelog_ok in Hload as [Hload _].
  unfold delete_entry. unfold bind at 1. rewrite Hload. cbv zeta.
  destruct (Nat.eqb _ _); [reflexivity | apply save_then_true].
Qed.

Lemma writable_filter (f : Entry -> bool) (es : list Entry) :
  writable es = true -> writable (filter f es) = true.
Proof.
  unfold writable. rewrite !forallb_forall. intros H x Hx.
  apply filter_In in Hx. apply H, Hx.
Qed.

Lemma writable_update_first (ts op txt : pystr) (es : list Entry) :
  writable es = true -> encodable op = true -> encodable txt = true ->
  writable (fst (update_first ts op txt es)) = true.
Proof.
  intros Hes Hop Htxt. induction es as [|x es IH]; [reflexivity|].
  change (writable (x :: es)) with (encodable_entry x && writable es) in Hes.
  apply andb_true_iff in Hes as [Hx Hes].
  cbn [update_first]. destruct (str_eqb (timestamp x) ts).
  - cbn [fst].
    change (encodable_entry (mkEntry (timestamp x) op txt) && writable es = true).
    rewrite Hes, andb_true_r.
    unfold encodable_entry in *. cbn [timestamp operation text].
    apply andb_true_iff in Hx as [Hx _]. apply andb_true_iff in Hx as [Hx _].
    rewrite Hx, Hop, Htxt. reflexivity.
  - destruct (update_first ts op txt es) as [es' found]. cbn [fst] in *.
    change (encodable_entry x && writable es' = true).
    rewrite Hx, (IH Hes). reflexivity.
Qed.

Lemma writable_perm (l1 l2 : list Entry) :
  Permutation l1 l2 -> writable l1 = true -> writable l2 = true.
Proof.
  unfold writable. rewrite !forallb_forall. intros Hp H x Hx.
  apply H. eapply Permutation_in; [symmetry; exact Hp | exact Hx].
Qed.

Lemma update_first_timestamps (ts op txt : pystr) (es : list Entry) :
  map timestamp (fst (update_first ts op txt es)) = map timestamp es.
Proof.
  induction es as [|x es IH]; [reflexivity|]. cbn [update_first].
  destruct (str_eqb (timestamp x) ts); [reflexivity|].
  destruct (update_first ts op txt es) as [es' found]. cbn [fst map] in *.
  rewrite IH. reflexivity.
Qed.

Lemma update_first_sorted (ts op txt : pystr) (es : list Entry) :
  StronglySorted desc es ->
  StronglySorted desc (fst (update_first ts op txt es)).
Proof.
  apply sorted_same_keys. symmetry. apply update_first_timestamps.
Qed.

Lemma loaded_after_save (w : world) (es : list Entry) :
  fst (load_changelog (saved w es)) = Ok (sort_desc es).
Proof. rewrite load_changelog_run. reflexivity. Qed.

End StoreRuns.

(** ** Further properties of the entry store *)

(** X2: the sort of [load_changelog] is stable: the entries that share a
    timestamp come out in the order in which the file holds them. *)
Theorem load_keeps_order_of_equal_timestamps
        (w : world) (stored es : list Entry) (ts : pystr) :
  changelog w = Stored stored ->
  fst (load_changelog w) = Ok es ->
  filter (fun e => str_eqb (timestamp e) ts) es =
  filter (fun e => str_eqb (timestamp e) ts) stored.
Proof.
  intros Hst Hload. apply load_changelog_ok in Hload as [_ ->].
  rewrite Hst. cbn [entries_of]. rewrite filter_sort_desc.
  apply sort_desc_id. apply (same_timestamp_sorted ts).
  intros x Hx. apply filter_In in Hx as [_ Hx]. apply str_eqb_eq, Hx.
Qed.

Lemma load_keeps_order_of_equal_timestamps_witness :
  let twin := mkEntry (timestamp entry_b) (lit "Created") (lit "Second") in
  let w := mkWorld (Stored [entry_a; entry_b; entry_c; twin]) [] in
  changelog w = Stored [entry_a; entry_b; entry_c; twin] /\
  fst (load_changelog w) = Ok [entry_c; entry_b; twin; entry_a] /\
  filter (fun e => str_eqb (timestamp e) (timestamp entry_b))
         [entry_c; entry_b; twin; entry_a]
  = filter (fun e => str_eqb (timestamp e) (timestamp entry_b))
           [entry_a; entry_b; entry_c; twin].
Proof.
  cbv zeta. split; [reflexivity | split; [reflexivity|]].
  exact (load_keeps_order_of_equal_timestamps
           (mkWorld (Stored [entry_a; entry_b; entry_c;
                             mkEntry (timestamp entry_b) (lit "Created") (lit "Second")]) [])
           _ _ (timestamp entry_b) eq_refl eq_refl).
Defined.

(** X3: on a changelog file that is missing, or on which [json.load] raises
    JSONDecodeError, [add_entry] with an operation and a text that can be
    encoded as UTF-8 writes a file that holds the new entry and nothing
    else; whatever the unparsable file held is gone. *)
Theorem add_entry_replaces_unparsable_file
        (w : world) (now : datetime) (op txt : pystr) :
  truthy (strip txt) = true ->
  encodable op = true -> encodable txt = true ->
  changelog w = Missing \/ changelog w = NotJson ->
  add_entry now op txt w =
  (Ok true, saved w [mkEntry (isoformat now) op txt]) /\
  changelog (saved w [mkEntry (isoformat now) op txt])
  = Stored [mkEntry (isoformat now) op txt].
Proof.
  intros Htxt Hop Hbytes Hdoc. split; [|reflexivity].
  rewrite (add_entry_run w now op txt [] Htxt)
    by (rewrite load_changelog_run; destruct Hdoc as [-> | ->]; reflexivity).
  apply save_and_succeed_ok. apply (writable_new_entry [] now op txt); auto.
Qed.

Lemma add_entry_replaces_unparsable_file_witness :
  truthy (strip (lit "Initial release")) = true /\
  encodable (lit "Created") = true /\ encodable (lit "Initial release") = true /\
  (changelog (mkWorld NotJson []) = Missing \/
   changelog (mkWorld NotJson []) = NotJson) /\
  add_entry sample_now (lit "Created") (lit "Initial release") (mkWorld NotJson [])
  = (Ok true,
     saved (mkWorld NotJson [])
       [mkEntry (isoformat sample_now) (lit "Created") (lit "Initial release")]).
Proof.
  split; [reflexivity | split; [reflexivity | split; [reflexivity |
    split; [right; reflexivity|]]]].
  exact (proj1 (add_entry_replaces_unparsable_file (mkWorld NotJson []) sample_now
                  (lit "Created") (lit "Initial release") eq_refl eq_refl eq_refl
                  (or_intror eq_refl))).
Defined.

(** X4: while the changelog file cannot be decoded, [add_entry] and
    [edit_entry] (with a text that is not blank) and [delete_entry] raise
    UnicodeDecodeError; they show no message and write nothing. *)
Theorem undecodable_file_stops_the_store
        (w : world) (now : datetime) (ts op txt : pystr) :
  changelog w = Undecodable -> truthy (strip txt) = true ->
  add_entry now op txt w = (Raise UnicodeDecodeError, w) /\
  edit_entry ts op txt w = (Raise UnicodeDecodeError, w) /\
  delete_entry ts w = (Raise UnicodeDecodeError, w).
Proof.
  intros Hdoc Htxt.
  assert (Hload : load_changelog w = (Raise UnicodeDecodeError, w))
    by (rewrite load_changelog_run, Hdoc; reflexivity).
  unfold add_entry, edit_entry, delete_entry. rewrite Htxt. cbn [negb].
  unfold bind. rewrite Hload. auto.
Qed.

Lemma undecodable_file_stops_the_store_witness :
  changelog (mkWorld Undecodable []) = Undecodable /\
  truthy (strip (lit "Fixed typo")) = true /\
  add_entry sample_now (lit "Edited") (lit "Fixed typo") (mkWorld Undecodable [])
  = (Raise UnicodeDecodeError, mkWorld Undecodable []).
Proof.
  split; [reflexivity | split; [reflexivity|]].
  exact (proj1 (undecodable_file_stops_the_store (mkWorld Undecodable [])
                  sample_now [] (lit "Edited") (lit "Fixed typo")
                  eq_refl eq_refl)).
Defined.

(** X5: on a changelog whose strings can be encoded as UTF-8,
    [delete_entry] removes every entry with the timestamp at once, so
    deleting the same timestamp again finds nothing: the second call shows
    the not-found error, returns [False] and writes nothing. *)
Theorem delete_entry_twice (w : world) (ts : pystr) (es : list Entry) :
  fst (load_changelog w) = Ok es ->
  writable es = true ->
  (exists x, In x es /\ timestamp x = ts) ->
  exists w1 es1,
    delete_entry ts w = (Ok true, w1) /\
    load_changelog w1 = (Ok es1, w1) /\
    (forall x, In x es1 -> timestamp x <> ts) /\
    delete_entry ts w1 = (Ok false, after w1 [delete_not_found]).
Proof.
  intros Hload Hw (x & Hx & Hts).
  pose proof (loaded_sorted _ Hload) as Hsorted.
  set (keep := filter (fun e => negb (str_eqb (timestamp e) ts)) es).
  assert (Hkeep : forall y, In y keep -> timestamp y <> ts).
  { intros y Hy. apply filter_In in Hy as [_ Hy].
    apply negb_true_iff, str_eqb_neq in Hy. exact Hy. }
  assert (Hload1 : load_changelog (saved w keep) = (Ok keep, saved w keep))
    by (apply load_saved, sorted_filter, Hsorted).
  exists (saved w keep), keep. split; [|split; [exact Hload1 | split; [exact Hkeep|]]].
  - rewrite (delete_entry_run w ts es Hload). cbv zeta. fold keep.
    destruct (Nat.eqb_spec (length es) (length keep)) as [Heq|];
      [|apply save_and_succeed_ok, writable_filter, Hw].
    exfalso. symmetry in Heq. unfold keep in Heq.
    rewrite filter_length_same in Heq.
    specialize (Heq x Hx). apply negb_true_iff, str_eqb_neq in Heq. auto.
  - rewrite (delete_entry_run (saved w keep) ts keep)
      by (rewrite Hload1; reflexivity).
    cbv zeta. rewrite filter_all, Nat.eqb_refl; [reflexivity|].
    intros y Hy. apply negb_true_iff, str_eqb_neq, Hkeep, Hy.
Qed.

Lemma delete_entry_twice_witness :
  fst (load_changelog sample_world) = Ok [entry_c; entry_b; entry_a] /\
  writable [entry_c; entry_b; entry_a] = true /\
  (exists x, In x [entry_c; entry_b; entry_a] /\ timestamp x = timestamp entry_b) /\
  exists w1 es1,
    delete_entry (timestamp entry_b) sample_world = (Ok true, w1) /\
    load_changelog w1 = (Ok es1, w1) /\
    (forall x, In x es1 -> timestamp x <> timestamp entry_b) /\
    delete_entry (timestamp entry_b) w1 = (Ok false, after w1 [delete_not_found]).
Proof.
  assert (H : exists x, In x [entry_c; entry_b; entry_a] /\
                        timestamp x = timestamp entry_b)
    by (exists entry_b; split; [right; left; reflexivity | reflexivity]).
  split; [reflexivity | split; [reflexivity | split; [exact H|]]].
  exact (delete_entry_twice sample_world (timestamp entry_b)
           [entry_c; entry_b; entry_a] eq_refl eq_refl H).
Defined.

(** X6: adding an entry and then deleting it by its timestamp gives back
    the list that was loaded before, provided no older entry carries the
    timestamp the clock gave and the strings of the changelog and of the new
    entry can be encoded as UTF-8. *)
Theorem add_then_delete
        (w : world) (now : datetime) (op txt : pystr) (es : list Entry) :
  truthy (strip txt) = true ->
  fst (load_changelog w) = Ok es ->
  writable es = true -> encodable op = true -> encodable txt = true ->
  (forall x, In x es -> timestamp x <> isoformat now) ->
  exists w1 w2,
    add_entry now op txt w = (Ok true, w1) /\
    delete_entry (isoformat now) w1 = (Ok true, w2) /\
    load_changelog w2 = (Ok es, w2).
Proof.
  intros Htxt Hload Hw Hop Hbytes Hfresh.
  pose proof (loaded_sorted _ Hload) as Hsorted.
  set (new_entry := mkEntry (isoformat now) op txt).
  set (p := fun e => negb (str_eqb (timestamp e) (isoformat now))).
  assert (Hkeep : filter p (sort_desc (es ++ [new_entry])) = es).
  { rewrite filter_sort_desc, filter_app. cbn [filter]. unfold p at 2.
    cbn [timestamp new_entry]. rewrite str_eqb_refl. cbn [negb].
    rewrite app_nil_r, filter_all, sort_desc_id; auto.
    intros x Hx. apply negb_true_iff, str_eqb_neq, Hfresh, Hx. }
  exists (saved w (es ++ [new_entry])), (saved (saved w (es ++ [new_entry])) es).
  split.
  { rewrite (add_entry_run w now op txt es Htxt Hload).
    apply save_and_succeed_ok, writable_new_entry; assumption. }
  split; [|apply load_saved, Hsorted].
  rewrite (delete_entry_run _ (isoformat now) (sort_desc (es ++ [new_entry])))
    by apply loaded_after_save.
  cbv zeta. fold p. rewrite Hkeep.
  assert (Hlen : length (sort_desc (es ++ [new_entry])) = S (length es)).
  { rewrite <- (Permutation_length (sort_desc_perm (es ++ [new_entry]))).
    rewrite length_app. cbn. lia. }
  rewrite Hlen. destruct (Nat.eqb_spec (S (length es)) (length es)); [lia|].
  apply save_and_succeed_ok, Hw.
Qed.

Lemma add_then_delete_witness :
  truthy (strip (lit "Added export")) = true /\
  fst (load_changelog sample_world) = Ok [entry_c; entry_b; entry_a] /\
  writable [entry_c; entry_b; entry_a] = true /\
  encodable (lit "Created") = true /\ encodable (lit "Added export") = true /\
  (forall x, In x [entry_c; entry_b; entry_a] -> timestamp x <> isoformat sample_now) /\
  exists w1 w2,
    add_entry sample_now (lit "Created") (lit "Added export") sample_world
    = (Ok true, w1) /\
    delete_entry (isoformat sample_now) w1 = (Ok true, w2) /\
    load_changelog w2 = (Ok [entry_c; entry_b; entry_a], w2).
Proof.
  assert (H : forall x, In x [entry_c; entry_b; entry_a] ->
                        timestamp x <> isoformat sample_now).
  { intros x [<-|[<-|[<-|[]]]]; vm_compute; discriminate. }
  split; [reflexivity | split; [reflexivity | split; [reflexivity |
    split; [reflexivity | split; [reflexivity | split; [exact H|]]]]]].
  exact (add_then_delete sample_world sample_now (lit "Created")
           (lit "Added export") [entry_c; entry_b; entry_a] eq_refl eq_refl
           eq_refl eq_refl eq_refl H).
Defined.

(** X7: [edit_entry] can be repeated: when the strings of the changelog and
    the new operation and text can be encoded as UTF-8, a second call with
    the same arguments succeeds again and saves the list the first call
    saved. *)
Theorem edit_entry_twice (w : world) (ts op txt : pystr) (es : list Entry) :
  truthy (strip txt) = true ->
  fst (load_changelog w) = Ok es ->
  writable es = true -> encodable op = true -> encodable txt = true ->
  (exists x, In x es /\ timestamp x = ts) ->
  exists w1 es1,
    edit_entry ts op txt w = (Ok true, w1) /\
    load_changelog w1 = (Ok es1, w1) /\
    edit_entry ts op txt w1 = (Ok true, saved w1 es1).
Proof.
  intros Htxt Hload Hw Hop Hbytes Hsome.
  pose proof (loaded_sorted _ Hload) as Hsorted.
  destruct (first_match ts es) as [(l1 & e & l2 & -> & He & Hl1)|Hnone];
    [|destruct Hsome as (x & Hx & Hts); destruct (Hnone x Hx Hts)].
  set (es1 := l1 ++ mkEntry (timestamp e) op txt :: l2).
  assert (Hw1 : writable es1 = true).
  { pose proof (writable_update_first ts op txt _ Hw Hop Hbytes) as H.
    rewrite update_first_found in H by assumption. exact H. }
  assert (Hload1 : load_changelog (saved w es1) = (Ok es1, saved w es1)).
  { apply load_saved. eapply sorted_same_keys; [|exact Hsorted].
    unfold es1. rewrite !map_app. reflexivity. }
  exists (saved w es1), es1. split; [|split; [exact Hload1|]].
  - rewrite (edit_entry_run w ts op txt _ Htxt Hload).
    rewrite update_first_found by assumption.
    apply save_and_succeed_ok, Hw1.
  - rewrite (edit_entry_run (saved w es1) ts op txt es1 Htxt)
      by (rewrite Hload1; reflexivity).
    unfold es1. rewrite update_first_found by assumption.
    apply save_and_succeed_ok, Hw1.
Qed.

Lemma edit_entry_twice_witness :
  truthy (strip (lit "Fixed two typos")) = true /\
  fst (load_changelog sample_world) = Ok [entry_c; entry_b; entry_a] /\
  writable [entry_c; entry_b; entry_a] = true /\
  encodable (lit "Edited") = true /\ encodable (lit "Fixed two typos") = true /\
  (exists x, In x [entry_c; entry_b; entry_a] /\ timestamp x = timestamp entry_b) /\
  exists w1 es1,
    edit_entry (timestamp entry_b) (lit "Edited") (lit "Fixed two typos") sample_world
    = (Ok true, w1) /\
    load_changelog w1 = (Ok es1, w1) /\
    edit_entry (timestamp entry_b) (lit "Edited") (lit "Fixed two typos") w1
    = (Ok true, saved w1 es1).
Proof.
  assert (H : exists x, In x [entry_c; entry_b; entry_a] /\
                        timestamp x = timestamp entry_b)
    by (exists entry_b; split; [right; left; reflexivity | reflexivity]).
  split; [reflexivity | split; [reflexivity | split; [reflexivity |
    split; [reflexivity | split; [reflexivity | split; [exact H|]]]]]].
  exact (edit_entry_twice sample_world (timestamp entry_b) (lit "Edited")
           (lit "Fixed two typos") [entry_c; entry_b; entry_a] eq_refl eq_refl
           eq_refl eq_refl eq_refl H).
Defined.

Section StoreRunsMore.

Lemma load_after_events (w : world) (evs : list event) (es : list Entry) :
  fst (load_changelog w) = Ok es ->
  load_changelog (after w evs) = (Ok es, after w evs).
Proof.
  intros Hload. rewrite load_changelog_run in *. cbn [after changelog fst] in *.
  destruct (readable (changelog w)); [|discriminate].
  injection Hload as <-. reflexivity.
Qed.

(** Dropping entries keeps the timestamps apart. *)
Lemma unique_timestamps_filter (keep : Entry -> bool) (es : list Entry) :
  NoDup (map timestamp es) -> NoDup (map timestamp (filter keep es)).
Proof.
  induction es as [|x es IH]; intros Hnd; [constructor|].
  cbn [map] in Hnd. apply NoDup_cons_iff in Hnd as [Hx Hes].
  cbn [filter]. destruct (keep x); [|exact (IH Hes)].
  cbn [map]. apply NoDup_cons; [|exact (IH Hes)].
  intros Hin. apply Hx. apply in_map_iff in Hin as (y & Hy & Hin).
  apply in_map_iff. exists y. apply filter_In in Hin. tauto.
Qed.

Lemma forallb_false_exists {A : Type} (p : A -> bool) (l : list A) :
  forallb p l = false <-> exists x, In x l /\ p x = false.
Proof.
  induction l as [|x l IH]; cbn [forallb].
  - split; [discriminate | intros (x & [] & _)].
  - rewrite andb_false_iff, IH. split.
    + intros [H|(y & Hy & Hp)]; [exists x | exists y]; split; auto; [left | right]; auto.
    + intros (y & [<-|Hy] & Hp); [left | right; exists y]; auto.
Qed.

(** A text passes the check of [add_entry] and [edit_entry] exactly when some
    character of it is not white space. *)
Lemma text_accepted_iff (txt : pystr) :
  truthy (strip txt) = true <-> exists c, In c txt /\ isspace c = false.
Proof.
  rewrite <- forallb_false_exists.
  destruct (strip txt) as [|c r] eqn:E; cbn [truthy].
  - apply strip_nil in E. rewrite E. split; discriminate.
  - split; [|reflexivity]. intros _.
    destruct (forallb isspace txt) eqn:F; [|reflexivity].
    apply strip_nil in F. congruence.
Qed.

(** In a sorted list the larger timestamp stands at the earlier position. *)
Lemma sorted_larger_first (l : list Entry) (i j : nat) (a b : Entry) :
  StronglySorted desc l ->
  nth_error l i = Some a -> nth_error l j = Some b ->
  str_ltb (timestamp b) (timestamp a) = true -> i < j.
Proof.
  intros Hs Hi Hj Hlt.
  destruct (Nat.lt_trichotomy i j) as [H|[H|H]]; [exact H | |].
  - subst j. rewrite Hi in Hj. injection Hj as ->.
    rewrite str_ltb_irrefl in Hlt. discriminate.
  - pose proof (sorted_nth Hs Hj Hi H) as Hd.
    unfold desc in Hd. congruence.
Qed.

End StoreRunsMore.

Lemma edit_entry_outcome
        (w : world) (ts op txt : pystr) (es : list Entry) :
  fst (load_changelog w) = Ok es ->
  writable es = true -> encodable op = true -> encodable txt = true ->
  exists r w' es',
    edit_entry ts op txt w = (Ok r, w') /\
    load_changelog w' = (Ok es', w') /\
    map timestamp es' = map timestamp es.
Proof.
  intros Hload Hw Hop Hbytes. pose proof (loaded_sorted _ Hload) as Hsorted.
  destruct (truthy (strip txt)) eqn:Htxt.
  - rewrite (edit_entry_run w ts op txt es Htxt Hload).
    destruct (snd (update_first ts op txt es)).
    + exists true, (saved w (fst (update_first ts op txt es))),
        (fst (update_first ts op txt es)).
      split; [apply save_and_succeed_ok, writable_update_first; assumption|].
      split; [apply load_saved, update_first_sorted, Hsorted|].
      apply update_first_timestamps.
    + exists false, (after w [edit_not_found]), es.
      split; [reflexivity|]. split; [apply load_after_events, Hload | reflexivity].
  - exists false, (after w [empty_text_warning]), es.
    split; [unfold edit_entry; rewrite Htxt; reflexivity|].
    split; [apply load_after_events, Hload | reflexivity].
Qed.

(** X8: on a changelog whose strings can be encoded as UTF-8, and with a new
    operation and text that can, whatever [edit_entry] returns (success,
    blank text, not found), the entries loaded afterwards are as many as
    before and carry the same timestamps in the same order. *)
Theorem edit_entry_keeps_timestamps
        (w : world) (ts op txt : pystr) (es : list Entry) :
  fst (load_changelog w) = Ok es ->
  writable es = true -> encodable op = true -> encodable txt = true ->
  exists r w' es',
    edit_entry ts op txt w = (Ok r, w') /\
    load_changelog w' = (Ok es', w') /\
    map timestamp es' = map timestamp es.
Proof. exact (edit_entry_outcome w ts op txt es). Qed.

Lemma edit_entry_keeps_timestamps_witness :
  fst (load_changelog sample_world) = Ok [entry_c; entry_b; entry_a] /\
  writable [entry_c; entry_b; entry_a] = true /\
  encodable (lit "Edited") = true /\ encodable (lit "Fixed two typos") = true /\
  exists r w' es',
    edit_entry (timestamp entry_b) (lit "Edited") (lit "Fixed two typos") sample_world
    = (Ok r, w') /\
    load_changelog w' = (Ok es', w') /\
    map timestamp es' = map timestamp [entry_c; entry_b; entry_a].
Proof.
  split; [reflexivity | split; [reflexivity | split; [reflexivity |
    split; [reflexivity|]]]].
  exact (edit_entry_keeps_timestamps sample_world (timestamp entry_b)
           (lit "Edited") (lit "Fixed two typos") [entry_c; entry_b; entry_a]
           eq_refl eq_refl eq_refl eq_refl).
Defined.

Section UniqueFacts.

(** What is loaded after a function that ends in a save. *)
Lemma loaded_after_save_and_succeed (w : world) (es es' : list Entry) :
  fst (load_changelog (snd (save_and_succeed w es))) = Ok es' ->
  es' = sort_desc es \/ es' = [].
Proof.
  unfold save_and_succeed. destruct (writable es); cbn [snd]; intros H.
  - rewrite loaded_after_save in H. injection H as <-. left. reflexivity.
  - rewrite load_truncated in H. injection H as <-. right. reflexivity.
Qed.

Lemma unique_timestamps_sorted (es : list Entry) :
  NoDup (map timestamp es) -> NoDup (map timestamp (sort_desc es)).
Proof.
  intros H. eapply Permutation_NoDup; [|exact H].
  apply Permutation_map, sort_desc_perm.
Qed.

End UniqueFacts.

(** X9: if no two loaded entries share a timestamp, this is still so after
    [edit_entry], after [delete_entry], and after [add_entry] when the clock
    reading is not the timestamp of an entry already there; it holds also
    when the save raises, as no entry is left then. *)
Theorem unique_timestamps_kept (w : world) (es : list Entry) :
  fst (load_changelog w) = Ok es ->
  NoDup (map timestamp es) ->
  (forall ts op txt es',
      fst (load_changelog (snd (edit_entry ts op txt w))) = Ok es' ->
      NoDup (map timestamp es')) /\
  (forall ts es',
      fst (load_changelog (snd (delete_entry ts w))) = Ok es' ->
      NoDup (map timestamp es')) /\
  (forall now op txt es',
      (forall x, In x es -> timestamp x <> isoformat now) ->
      fst (load_changelog (snd (add_entry now op txt w))) = Ok es' ->
      NoDup (map timestamp es')).
Proof.
  intros Hload Hnd. pose proof (loaded_sorted _ Hload) as Hsorted.
  assert (Hblank : forall evs es',
             fst (load_changelog (after w evs)) = Ok es' ->
             NoDup (map timestamp es')).
  { intros evs es' H. rewrite (load_after_events w evs es Hload) in H.
    injection H as <-. exact Hnd. }
  split; [|split].
  - intros ts op txt es' H.
    destruct (truthy (strip txt)) eqn:Htxt.
    + rewrite (edit_entry_run w ts op txt es Htxt Hload) in H.
      destruct (snd (update_first ts op txt es));
        [|exact (Hblank [edit_not_found] es' H)].
      apply loaded_after_save_and_succeed in H as [-> | ->]; [|constructor].
      apply unique_timestamps_sorted. rewrite update_first_timestamps. exact Hnd.
    + unfold edit_entry in H. rewrite Htxt in H.
      exact (Hblank [empty_text_warning] es' H).
  - intros ts es' H. rewrite (delete_entry_run w ts es Hload) in H.
    cbv zeta in H. destruct (Nat.eqb _ _);
      [exact (Hblank [delete_not_found] es' H)|].
    apply loaded_after_save_and_succeed in H as [-> | ->]; [|constructor].
    apply unique_timestamps_sorted, unique_timestamps_filter, Hnd.
  - intros now op txt es' Hfresh H.
    destruct (truthy (strip txt)) eqn:Htxt.
    + rewrite (add_entry_run w now op txt es Htxt Hload) in H.
      apply loaded_after_save_and_succeed in H as [-> | ->]; [|constructor].
      apply unique_timestamps_sorted.
      rewrite map_app. cbn [map timestamp].
      eapply Permutation_NoDup; [apply Permutation_cons_append|].
      constructor; [|exact Hnd].
      intros Hin. apply in_map_iff in Hin as (x & Hx & Hin).
      exact (Hfresh x Hin Hx).
    + unfold add_entry in H. rewrite Htxt in H.
      exact (Hblank [empty_text_warning] es' H).
Qed.

Lemma unique_timestamps_kept_witness :
  fst (load_changelog sample_world) = Ok [entry_c; entry_b; entry_a] /\
  NoDup (map timestamp [entry_c; entry_b; entry_a]) /\
  NoDup (map timestamp [entry_c; entry_a]).
Proof.
  assert (H : NoDup (map timestamp [entry_c; entry_b; entry_a])).
  { repeat constructor; cbn; intros H;
      repeat (destruct H as [H|H]; [discriminate H|]); exact H. }
  split; [reflexivity | split; [exact H|]].
  exact (proj1 (proj2 (unique_timestamps_kept sample_world
                         [entry_c; entry_b; entry_a] eq_refl H))
           (timestamp entry_b) [entry_c; entry_a] eq_refl).
Defined.

(** X10: when no two loaded entries share a timestamp and the strings of the
    other entries can be encoded as UTF-8, [delete_entry] removes exactly
    the entry with the given timestamp and keeps the others in their
    order. *)
Theorem delete_entry_removes_one
        (w : world) (ts : pystr) (l1 : list Entry) (e : Entry) (l2 : list Entry) :
  fst (load_changelog w) = Ok (l1 ++ e :: l2) ->
  NoDup (map timestamp (l1 ++ e :: l2)) ->
  timestamp e = ts ->
  writable (l1 ++ l2) = true ->
  delete_entry ts w = (Ok true, saved w (l1 ++ l2)) /\
  load_changelog (saved w (l1 ++ l2)) = (Ok (l1 ++ l2), saved w (l1 ++ l2)).
Proof.
  intros Hload Hnd He Hw. pose proof (loaded_sorted _ Hload) as Hsorted.
  set (p := fun x => negb (str_eqb (timestamp x) ts)).
  assert (Hothers : forall x, In x (l1 ++ l2) -> p x = true).
  { intros x Hx. apply negb_true_iff, str_eqb_neq. intros Hts.
    rewrite map_app in Hnd. cbn [map] in Hnd. apply NoDup_remove_2 in Hnd.
    apply Hnd. rewrite <- map_app, He, <- Hts. apply in_map, Hx. }
  assert (Hkeep : filter p (l1 ++ e :: l2) = l1 ++ l2).
  { rewrite filter_app. cbn [filter]. unfold p at 2.
    rewrite He, str_eqb_refl. cbn [negb].
    rewrite <- filter_app. apply filter_all, Hothers. }
  split.
  - rewrite (delete_entry_run w ts _ Hload). cbv zeta. fold p. rewrite Hkeep.
    rewrite !length_app. cbn [length].
    destruct (Nat.eqb_spec (length l1 + S (length l2)) (length l1 + length l2));
      [lia | apply save_and_succeed_ok, Hw].
  - apply load_saved. rewrite <- Hkeep. apply sorted_filter, Hsorted.
Qed.

Lemma delete_entry_removes_one_witness :
  fst (load_changelog sample_world) = Ok ([entry_c] ++ entry_b :: [entry_a]) /\
  NoDup (map timestamp ([entry_c] ++ entry_b :: [entry_a])) /\
  writable ([entry_c] ++ [entry_a]) = true /\
  delete_entry (timestamp entry_b) sample_world
  = (Ok true, saved sample_world ([entry_c] ++ [entry_a])).
Proof.
  assert (H : NoDup (map timestamp ([entry_c] ++ entry_b :: [entry_a]))).
  { repeat constructor; cbn; intros H;
      repeat (destruct H as [H|H]; [discriminate H|]); exact H. }
  split; [reflexivity | split; [exact H | split; [reflexivity|]]].
  exact (proj1 (delete_entry_removes_one sample_world (timestamp entry_b)
                  [entry_c] entry_b [entry_a] eq_refl H eq_refl eq_refl)).
Defined.

(** X11: on a changelog that can be read and whose strings can be encoded
    as UTF-8, [add_entry] with an operation and a text that can be encoded
    returns [True] exactly when the text holds a character other than white
    space, and [False] exactly when it holds none. *)
Theorem add_entry_accepts_visible_text
        (w : world) (now : datetime) (op txt : pystr) (es : list Entry) :
  fst (load_changelog w) = Ok es ->
  writable es = true -> encodable op = true -> encodable txt = true ->
  (fst (add_entry now op txt w) = Ok true <->
   exists c, In c txt /\ isspace c = false) /\
  (fst (add_entry now op txt w) = Ok false <->
   forall c, In c txt -> isspace c = true).
Proof.
  intros Hload Hw Hop Hbytes.
  rewrite <- text_accepted_iff, <- forallb_forall, <- strip_nil.
  destruct (truthy (strip txt)) eqn:Htxt.
  - rewrite (add_entry_run w now op txt _ Htxt Hload).
    rewrite save_and_succeed_ok by (apply writable_new_entry; assumption).
    cbn [fst]. split; [tauto|]. split; [discriminate|].
    intros E. rewrite E in Htxt. discriminate.
  - unfold add_entry. rewrite Htxt. cbn [negb].
    change (fst _) with (@Ok bool false).
    split; [split; discriminate|]. split; [|reflexivity].
    intros _. destruct (strip txt); [reflexivity | discriminate].
Qed.

Lemma add_entry_accepts_visible_text_witness :
  fst (load_changelog sample_world) = Ok [entry_c; entry_b; entry_a] /\
  writable [entry_c; entry_b; entry_a] = true /\
  encodable (lit "Created") = true /\ encodable (lit " x ") = true /\
  (fst (add_entry sample_now (lit "Created") (lit " x ") sample_world) = Ok true <->
   exists c, In c (lit " x ") /\ isspace c = false).
Proof.
  split; [reflexivity | split; [reflexivity | split; [reflexivity |
    split; [reflexivity|]]]].
  exact (proj1 (add_entry_accepts_visible_text sample_world sample_now
                  (lit "Created") (lit " x ") [entry_c; entry_b; entry_a]
                  eq_refl eq_refl eq_refl eq_refl)).
Defined.

(** X12: of two entries added one after the other, with strings that can be
    encoded as UTF-8 to a changelog whose strings can, the one added at the
    later clock reading is loaded before the other. *)
Theorem later_entry_loads_first
        (w : world) (now1 now2 : datetime) (op1 txt1 op2 txt2 : pystr)
        (es : list Entry) :
  truthy (strip txt1) = true -> truthy (strip txt2) = true ->
  valid_datetime now1 = true -> valid_datetime now2 = true ->
  datetime_lt now1 now2 ->
  fst (load_changelog w) = Ok es ->
  writable es = true ->
  encodable op1 = true -> encodable txt1 = true ->
  encodable op2 = true -> encodable txt2 = true ->
  let e1 := mkEntry (isoformat now1) op1 txt1 in
  let e2 := mkEntry (isoformat now2) op2 txt2 in
  exists w1 w2 es2,
    add_entry now1 op1 txt1 w = (Ok true, w1) /\
    add_entry now2 op2 txt2 w1 = (Ok true, w2) /\
    load_changelog w2 = (Ok es2, w2) /\
    In e1 es2 /\ In e2 es2 /\
    (forall i j, nth_error es2 i = Some e2 -> nth_error es2 j = Some e1 -> i < j).
Proof.
  intros Ht1 Ht2 Hv1 Hv2 Hlt Hload Hw Ho1 Hb1 Ho2 Hb2 e1 e2.
  set (es1 := sort_desc (es ++ [e1])).
  set (es2 := sort_desc (es1 ++ [e2])).
  assert (Hin1 : In e1 es1).
  { eapply Permutation_in; [apply sort_desc_perm|].
    apply in_or_app. right. left. reflexivity. }
  assert (Hw0 : writable (es ++ [e1]) = true)
    by (apply writable_new_entry; assumption).
  assert (Hw1 : writable es1 = true)
    by (exact (writable_perm _ _ (sort_desc_perm (es ++ [e1])) Hw0)).
  exists (saved w (es ++ [e1])), (saved (saved w (es ++ [e1])) (es1 ++ [e2])), es2.
  split.
  { rewrite (add_entry_run w now1 op1 txt1 es Ht1 Hload).
    apply save_and_succeed_ok, Hw0. }
  split.
  { rewrite (add_entry_run (saved w (es ++ [e1])) now2 op2 txt2 es1 Ht2)
      by apply loaded_after_save.
    apply save_and_succeed_ok, writable_new_entry; assumption. }
  split; [apply load_changelog_run|].
  split; [|split].
  - eapply Permutation_in; [apply sort_desc_perm|]. apply in_or_app. left. exact Hin1.
  - eapply Permutation_in; [apply sort_desc_perm|].
    apply in_or_app. right. left. reflexivity.
  - intros i j Hi Hj.
    apply (sorted_larger_first es2 i j e2 e1 (sort_desc_sorted _) Hi Hj).
    apply isoformat_increasing; assumption.
Qed.

Lemma later_entry_loads_first_witness :
  let later := mkDatetime 2024 5 4 8 15 1 0 in
  truthy (strip (lit "First")) = true /\ truthy (strip (lit "Second")) = true /\
  valid_datetime sample_now = true /\ valid_datetime later = true /\
  datetime_lt sample_now later /\
  fst (load_changelog sample_world) = Ok [entry_c; entry_b; entry_a] /\
  writable [entry_c; entry_b; entry_a] = true /\
  encodable (lit "Created") = true /\ encodable (lit "First") = true /\
  encodable (lit "Edited") = true /\ encodable (lit "Second") = true /\
  exists w1 w2 es2,
    add_entry sample_now (lit "Created") (lit "First") sample_world = (Ok true, w1) /\
    add_entry later (lit "Edited") (lit "Second") w1 = (Ok true, w2) /\
    load_changelog w2 = (Ok es2, w2) /\
    In (mkEntry (isoformat sample_now) (lit "Created") (lit "First")) es2 /\
    In (mkEntry (isoformat later) (lit "Edited") (lit "Second")) es2 /\
    (forall i j,
        nth_error es2 i = Some (mkEntry (isoformat later) (lit "Edited") (lit "Second")) ->
        nth_error es2 j = Some (mkEntry (isoformat sample_now) (lit "Created") (lit "First")) ->
        i < j).
Proof.
  cbv zeta.
  assert (Hlt : datetime_lt sample_now (mkDatetime 2024 5 4 8 15 1 0)).
  { unfold datetime_lt. cbn. do 5 (right; split; [reflexivity|]). left. lia. }
  split; [reflexivity | split; [reflexivity | split; [reflexivity |
    split; [reflexivity | split; [exact Hlt | split; [reflexivity |
    split; [reflexivity | split; [reflexivity | split; [reflexivity |
    split; [reflexivity | split; [reflexivity|]]]]]]]]]]].
  exact (later_entry_loads_first sample_world sample_now
           (mkDatetime 2024 5 4 8 15 1 0) (lit "Created") (lit "First")
           (lit "Edited") (lit "Second") [entry_c; entry_b; entry_a]
           eq_refl eq_refl eq_refl eq_refl Hlt eq_refl
           eq_refl eq_refl eq_refl eq_refl eq_refl).
Defined.

(** X28: when one of the strings to be written cannot be encoded as UTF-8
    (it holds a lone surrogate), [add_entry], [edit_entry] and
    [delete_entry] do not return: [save_changelog] raises UnicodeEncodeError
    after the file was emptied, no message is shown, and the next load finds
    no entry: the whole changelog is lost. *)
Theorem failed_save_loses_changelog
        (w : world) (now : datetime) (ts op txt : pystr) (es : list Entry) :
  truthy (strip txt) = true ->
  fst (load_changelog w) = Ok es ->
  (writable (es ++ [mkEntry (isoformat now) op txt]) = false ->
   add_entry now op txt w = (Raise UnicodeEncodeError, truncated w)) /\
  (snd (update_first ts op txt es) = true ->
   writable (fst (update_first ts op txt es)) = false ->
   edit_entry ts op txt w = (Raise UnicodeEncodeError, truncated w)) /\
  (let keep := filter (fun e => negb (str_eqb (timestamp e) ts)) es in
   length keep <> length es -> writable keep = false ->
   delete_entry ts w = (Raise UnicodeEncodeError, truncated w)) /\
  load_changelog (truncated w) = (Ok [], truncated w) /\
  trace (truncated w) = trace w ++ [changelog_truncated].
Proof.
  intros Htxt Hload. split; [|split; [|split; [|split; reflexivity]]].
  - intros Hw. rewrite (add_entry_run w now op txt es Htxt Hload).
    apply save_and_succeed_raise, Hw.
  - intros Hfound Hw. rewrite (edit_entry_run w ts op txt es Htxt Hload), Hfound.
    apply save_and_succeed_raise, Hw.
  - intros keep Hlen Hw. rewrite (delete_entry_run w ts es Hload). cbv zeta.
    fold keep. destruct (Nat.eqb_spec (length es) (length keep)); [congruence|].
    apply save_and_succeed_raise, Hw.
Qed.

Lemma failed_save_loses_changelog_witness :
  truthy (strip surrogate_text) = true /\
  fst (load_changelog sample_world) = Ok [entry_c; entry_b; entry_a] /\
  writable ([entry_c; entry_b; entry_a]
            ++ [mkEntry (isoformat sample_now) (lit "Created") surrogate_text]) = false /\
  add_entry sample_now (lit "Created") surrogate_text sample_world
  = (Raise UnicodeEncodeError, truncated sample_world).
Proof.
  split; [reflexivity | split; [reflexivity | split; [reflexivity|]]].
  exact (proj1 (failed_save_loses_changelog sample_world sample_now []
                  (lit "Created") surrogate_text [entry_c; entry_b; entry_a]
                  eq_refl eq_refl) eq_refl).
Defined.

(** ** Further properties of the report renderer *)

Section RendererMore.

Variable str_lower : pystr -> pystr.
Variable fromisoformat : pystr -> option datetime.
Variable strftime : datetime -> pystr.

Local Abbreviation parse_ok := (parses fromisoformat).
Local Abbreviation block := (rendered_block str_lower fromisoformat strftime).
Local Abbreviation document_of := (report str_lower fromisoformat strftime).
Local Abbreviation exported := (export_events str_lower fromisoformat strftime).
Local Abbreviation export := (generate_html_file str_lower fromisoformat strftime).

(** No event of the list is the one [H] says is in it. *)
Ltac no_such_event H :=
  cbn in H;
  repeat match type of H with
         | _ \/ _ => destruct H as [H|H]; [discriminate H|]
         end;
  try contradiction.

Lemma after_nothing (w : world) : after w [] = w.
Proof. destruct w. unfold after. cbn. rewrite app_nil_r. reflexivity. Qed.

(** Every run of [generate_html_file], as the events it adds. *)
Lemma generate_html_file_events
      (answer : pystr) (write_failure : option pystr) (w : world) :
  exists evs,
    snd (export answer write_failure w) = after w evs /\
    (evs = [] \/ evs = [nothing_to_export] \/ evs = [asksaveasfilename answer]
     \/ (exists e, write_failure = Some e /\
                   evs = [asksaveasfilename answer;
                          showerror (lit "Error")
                            (lit "Failed to save HTML file: " ++ e)])
     \/ (exists es, fst (load_changelog w) = Ok es /\ es <> [] /\
                    forallb parse_ok es = true /\ truthy answer = true /\
                    write_failure = None /\ evs = exported answer es)).
Proof.
  destruct (fst (load_changelog w)) as [es|e] eqn:Hload.
  - rewrite (generate_html_file_run str_lower fromisoformat strftime
               answer write_failure w Hload).
    destruct es as [|x es]; [exists [nothing_to_export]; auto|].
    destruct (forallb parse_ok (x :: es)) eqn:Hall;
      [|exists []; rewrite after_nothing; auto].
    destruct (truthy answer) eqn:Hans;
      [|exists [asksaveasfilename answer]; auto].
    destruct write_failure as [e|].
    + eexists. split; [reflexivity|]. do 3 right. left. exists e. auto.
    + eexists. split; [reflexivity|]. do 4 right. exists (x :: es).
      repeat split; auto. discriminate.
  - exists []. rewrite after_nothing. split; [|auto].
    rewrite load_changelog_run in Hload. cbn [fst] in Hload.
    unfold generate_html_file, bind at 1. rewrite load_changelog_run.
    destruct (readable (changelog w)); [discriminate | reflexivity].
Qed.

(** X14: a report is written only when there are entries, every timestamp
    parses, the user chose a file name and the write succeeded.  When the
    dialog is dismissed or the write fails, no report is written. *)
Theorem report_written_only_on_success
        (answer : pystr) (write_failure : option pystr) (w : world)
        (filepath content : pystr) (evs : list event) :
  snd (export answer write_failure w) = after w evs ->
  In (report_written filepath content) evs ->
  exists es,
    fst (load_changelog w) = Ok es /\ es <> [] /\
    forallb parse_ok es = true /\ truthy answer = true /\
    write_failure = None /\
    filepath = answer /\ content = document_of es.
Proof.
  intros Hrun Hin.
  destruct (generate_html_file_events answer write_failure w) as (evs' & Hrun' & Hevs).
  assert (evs = evs').
  { rewrite Hrun in Hrun'. unfold after in Hrun'.
    injection Hrun' as H. apply app_inv_head in H. exact H. }
  subst evs'.
  destruct Hevs as [->|[->|[->|[(e & _ & ->)|(es & H1 & H2 & H3 & H4 & H5 & ->)]]]];
    try solve [no_such_event Hin].
  exists es. cbn in Hin.
  destruct Hin as [Hin|[Hin|[Hin|[]]]]; try discriminate Hin.
  injection Hin as <- <-. auto 10.
Qed.

(** X15: when writing the destination fails, [generate_html_file] does not
    raise: it shows an error message that carries the text of the exception
    and returns. *)
Theorem write_failure_is_reported
        (answer e : pystr) (w : world) (es : list Entry) :
  fst (load_changelog w) = Ok es -> es <> [] ->
  forallb parse_ok es = true -> truthy answer = true ->
  export answer (Some e) w =
  (Ok tt,
   after w [asksaveasfilename answer;
            showerror (lit "Error") (lit "Failed to save HTML file: " ++ e)]).
Proof.
  intros Hload Hne Hall Hans.
  rewrite (generate_html_file_run str_lower fromisoformat strftime
             answer (Some e) w Hload).
  destruct es as [|x es]; [contradiction|]. rewrite Hall, Hans. reflexivity.
Qed.

(** X16: the report holds the blocks of the entries between the head and
    the tail of the template, one after the other in the order of the loaded
    list: the block of an entry that is loaded earlier comes earlier. *)
Theorem report_blocks_in_load_order
        (answer : pystr) (w : world)
        (l1 : list Entry) (e1 : Entry) (l2 : list Entry) (e2 : Entry)
        (l3 : list Entry) :
  fst (load_changelog w) = Ok (l1 ++ e1 :: l2 ++ e2 :: l3) ->
  forallb parse_ok (l1 ++ e1 :: l2 ++ e2 :: l3) = true ->
  truthy answer = true ->
  exists content,
    In (report_written answer content) (trace (snd (export answer None w))) /\
    content =
    html_head
    ++ concat (map block l1) ++ block e1
    ++ concat (map block l2) ++ block e2
    ++ concat (map block l3) ++ html_tail.
Proof.
  intros Hload Hall Hans.
  exists (document_of (l1 ++ e1 :: l2 ++ e2 :: l3)). split.
  - rewrite (generate_html_file_run str_lower fromisoformat strftime
               answer None w Hload).
    rewrite Hall, Hans.
    destruct (l1 ++ e1 :: l2 ++ e2 :: l3) as [|x xs] eqn:E;
      [destruct l1; discriminate E|].
    cbn [snd after trace]. apply in_or_app. right. right. left. reflexivity.
  - unfold report, html_template.
    rewrite !map_app. cbn [map]. rewrite !concat_app. cbn [concat].
    rewrite !map_app. cbn [map]. rewrite !concat_app. cbn [concat].
    rewrite <- !app_assoc. reflexivity.
Qed.

End RendererMore.

(** X17: a text without ampersand, angle bracket or quote is not changed
    by [html.escape], so it stands in the report as it was entered. *)
Theorem plain_text_unchanged (txt : pystr) :
  (forall c, In c txt ->
             c <> 38%N /\ c <> 60%N /\ c <> 62%N /\ c <> 34%N /\ c <> 39%N) ->
  html_escape txt = txt.
Proof.
  intros H. rewrite html_escape_chars.
  induction txt as [|c txt IH]; [reflexivity|]. cbn [flat_map].
  rewrite IH by (intros x Hx; apply H; right; exact Hx).
  destruct (H c (or_introl eq_refl)) as (H1 & H2 & H3 & H4 & H5).
  unfold escape_char.
  repeat match goal with
         | |- context [N.eqb c ?k] => destruct (N.eqb_spec c k); [contradiction|]
         end.
  reflexivity.
Qed.

Lemma plain_text_unchanged_witness :
  (forall c, In c (lit "Fixed typo") ->
             c <> 38%N /\ c <> 60%N /\ c <> 62%N /\ c <> 34%N /\ c <> 39%N) /\
  html_escape (lit "Fixed typo") = lit "Fixed typo".
Proof.
  assert (H : forall c, In c (lit "Fixed typo") ->
                        c <> 38%N /\ c <> 60%N /\ c <> 62%N /\ c <> 34%N /\ c <> 39%N).
  { intros c Hc. cbn in Hc.
    repeat (destruct Hc as [<-|Hc]; [repeat split; discriminate|]). destruct Hc. }
  split; [exact H|]. exact (plain_text_unchanged (lit "Fixed typo") H).
Defined.

Lemma report_written_only_on_success_witness :
  let w := mkWorld (Stored [entry_a]) [] in
  let evs := export_events ascii_lower parse_isoformat format_ymd_hms
               (lit "changelog.html") [entry_a] in
  snd (generate_html_file ascii_lower parse_isoformat format_ymd_hms
         (lit "changelog.html") None w) = after w evs /\
  In (report_written (lit "changelog.html")
        (report ascii_lower parse_isoformat format_ymd_hms [entry_a])) evs /\
  exists es,
    fst (load_changelog w) = Ok es /\ es <> [] /\
    forallb (parses parse_isoformat) es = true /\
    truthy (lit "changelog.html") = true /\
    @None pystr = None /\
    lit "changelog.html" = lit "changelog.html" /\
    report ascii_lower parse_isoformat format_ymd_hms [entry_a]
    = report ascii_lower parse_isoformat format_ymd_hms es.
Proof.
  cbv zeta.
  assert (Hin : In (report_written (lit "changelog.html")
                      (report ascii_lower parse_isoformat format_ymd_hms [entry_a]))
                   (export_events ascii_lower parse_isoformat format_ymd_hms
                      (lit "changelog.html") [entry_a]))
    by (right; left; reflexivity).
  split; [reflexivity | split; [exact Hin|]].
  exact (report_written_only_on_success ascii_lower parse_isoformat format_ymd_hms
           (lit "changelog.html") None (mkWorld (Stored [entry_a]) [])
           (lit "changelog.html")
           (report ascii_lower parse_isoformat format_ymd_hms [entry_a])
           (export_events ascii_lower parse_isoformat format_ymd_hms
              (lit "changelog.html") [entry_a])
           eq_refl Hin).
Defined.

Lemma write_failure_is_reported_witness :
  let w := mkWorld (Stored [entry_a]) [] in
  fst (load_changelog w) = Ok [entry_a] /\ [entry_a] <> [] /\
  forallb (parses parse_isoformat) [entry_a] = true /\
  truthy (lit "changelog.html") = true /\
  generate_html_file ascii_lower parse_isoformat format_ymd_hms
    (lit "changelog.html") (Some (lit "Permission denied")) w
  = (Ok tt,
     after w [asksaveasfilename (lit "changelog.html");
              showerror (lit "Error")
                (lit "Failed to save HTML file: " ++ lit "Permission denied")]).
Proof.
  cbv zeta.
  assert (Hne : [entry_a] <> []) by discriminate.
  split; [reflexivity | split; [exact Hne | split; [reflexivity | split; [reflexivity|]]]].
  exact (write_failure_is_reported ascii_lower parse_isoformat format_ymd_hms
           (lit "changelog.html") (lit "Permission denied")
           (mkWorld (Stored [entry_a]) []) [entry_a] eq_refl Hne eq_refl eq_refl).
Defined.

Lemma report_blocks_in_load_order_witness :
  fst (load_changelog sample_world) = Ok ([] ++ entry_c :: [entry_b] ++ entry_a :: []) /\
  forallb (parses parse_isoformat) ([] ++ entry_c :: [entry_b] ++ entry_a :: []) = true /\
  truthy (lit "changelog.html") = true /\
  exists content,
    In (report_written (lit "changelog.html") content)
       (trace (snd (generate_html_file ascii_lower parse_isoformat format_ymd_hms
                      (lit "changelog.html") None sample_world))) /\
    content =
    html_head
    ++ concat (map (rendered_block ascii_lower parse_isoformat format_ymd_hms) [])
    ++ rendered_block ascii_lower parse_isoformat format_ymd_hms entry_c
    ++ concat (map (rendered_block ascii_lower parse_isoformat format_ymd_hms) [entry_b])
    ++ rendered_block ascii_lower parse_isoformat format_ymd_hms entry_a
    ++ concat (map (rendered_block ascii_lower parse_isoformat format_ymd_hms) [])
    ++ html_tail.
Proof.
  split; [reflexivity | split; [reflexivity | split; [reflexivity|]]].
  exact (report_blocks_in_load_order ascii_lower parse_isoformat format_ymd_hms
           (lit "changelog.html") sample_world [] entry_c [entry_b] entry_a []
           eq_refl eq_refl eq_refl).
Defined.

(** ** Stripping *)

Section StripFacts.

Lemma lstrip_idem (s : pystr) : lstrip (lstrip s) = lstrip s.
Proof.
  induction s as [|c s IH]; [reflexivity|]. cbn [lstrip].
  destruct (isspace c) eqn:E; [exact IH|]. cbn [lstrip]. rewrite E. reflexivity.
Qed.

(** Once something other than white space was seen, the rest is kept. *)
Lemma lstrip_app (s t : pystr) :
  lstrip s <> [] -> lstrip (s ++ t) = lstrip s ++ t.
Proof.
  induction s as [|c s IH]; intros H; [contradiction|]. cbn [lstrip app] in *.
  destruct (isspace c); [apply IH, H | reflexivity].
Qed.

Lemma lstrip_spaces_app (s t : pystr) :
  lstrip s = [] -> lstrip (s ++ t) = lstrip t.
Proof.
  induction s as [|c s IH]; intros H; [reflexivity|]. cbn [lstrip app] in *.
  destruct (isspace c); [apply IH, H | discriminate].
Qed.

Lemma rstrip_app_space (s : pystr) (c : N) :
  isspace c = true -> rstrip (s ++ [c]) = rstrip s.
Proof.
  intros Hc. unfold rstrip. rewrite rev_app_distr. cbn [rev app lstrip].
  rewrite Hc. reflexivity.
Qed.

(** A white-space character at the end does not survive [strip]. *)
Lemma strip_app_space (s : pystr) (c : N) :
  isspace c = true -> strip (s ++ [c]) = strip s.
Proof.
  intros Hc. unfold strip.
  destruct (lstrip s) as [|x r] eqn:E.
  - rewrite lstrip_spaces_app by exact E. cbn [lstrip]. rewrite Hc. reflexivity.
  - rewrite lstrip_app by (rewrite E; discriminate). rewrite E.
    apply rstrip_app_space, Hc.
Qed.

Lemma lstrip_head (s : pystr) :
  match lstrip s with [] => True | c :: _ => isspace c = false end.
Proof.
  induction s as [|c s IH]; [exact I|]. cbn [lstrip].
  destruct (isspace c) eqn:E; [exact IH | exact E].
Qed.

Lemma lstrip_last (s : pystr) (c : N) :
  isspace c = false -> exists r, lstrip (s ++ [c]) = r ++ [c].
Proof.
  intros Hc. induction s as [|x s IH]; cbn [app lstrip].
  - rewrite Hc. exists []. reflexivity.
  - destruct (isspace x); [exact IH | exists (x :: s); reflexivity].
Qed.

(** [rstrip] keeps a first character that is not white space. *)
Lemma rstrip_head (c : N) (r : pystr) :
  isspace c = false -> exists r', rstrip (c :: r) = c :: r'.
Proof.
  intros Hc. unfold rstrip. cbn [rev].
  destruct (lstrip_last (rev r) c Hc) as [l' ->].
  rewrite rev_app_distr. cbn. exists (rev l'). reflexivity.
Qed.

Lemma rstrip_idem (s : pystr) : rstrip (rstrip s) = rstrip s.
Proof. unfold rstrip. rewrite rev_involutive, lstrip_idem. reflexivity. Qed.

(** Stripping twice is stripping once. *)
Lemma strip_idem (s : pystr) : strip (strip s) = strip s.
Proof.
  unfold strip at 1.
  assert (H : lstrip (strip s) = strip s).
  { unfold strip. pose proof (lstrip_head s) as Hh.
    destruct (lstrip s) as [|c r]; [reflexivity|].
    destruct (rstrip_head c r Hh) as [r' ->]. cbn [lstrip]. rewrite Hh. reflexivity. }
  rewrite H. unfold strip. apply rstrip_idem.
Qed.

Lemma lstrip_incl (s : pystr) (c : N) : In c (lstrip s) -> In c s.
Proof.
  induction s as [|x s IH]; [auto|]. cbn [lstrip].
  destruct (isspace x); [right; auto | auto].
Qed.

Lemma strip_incl (s : pystr) (c : N) : In c (strip s) -> In c s.
Proof.
  unfold strip, rstrip. intros H.
  apply in_rev, lstrip_incl in H. apply in_rev in H.
  apply lstrip_incl, H.
Qed.

(** Stripping a text that can be encoded gives one that can. *)
Lemma encodable_strip (s : pystr) : encodable s = true -> encodable (strip s) = true.
Proof.
  unfold encodable. rewrite !forallb_forall. intros H c Hc.
  apply H, strip_incl, Hc.
Qed.

End StripFacts.

(** ** Running the methods of the window *)

(** Unfold the assignments and widget calls. *)
Ltac widgets :=
  cbv [gbind gret modify get set_entries set_selected_entry_timestamp
       operation_var_set text_input_get text_input_delete text_input_insert
       text_input_focus_set save_button_config delete_button_config
       clear_button_config changelog_list_delete changelog_list_insert
       changelog_list_selection_clear askyesno
       entries selected_entry_timestamp operation_var text_input
       text_input_focus save_button delete_button clear_button
       changelog_list curselection asked].

Section WindowRuns.

Lemma insert_lines_run (es : list Entry) (s : state) (w : world) :
  insert_lines es s w =
  (Done tt,
   mkState (entries s) (selected_entry_timestamp s) (operation_var s)
     (text_input s) (text_input_focus s) (save_button s) (delete_button s)
     (clear_button s) (changelog_list s ++ map display_str es)
     (curselection s) (asked s),
   w).
Proof.
  revert s. induction es as [|e es IH]; intros s.
  - destruct s. cbn. rewrite app_nil_r. reflexivity.
  - cbn [insert_lines]. unfold gbind, modify. rewrite IH.
    unfold changelog_list_insert. cbn. rewrite <- app_assoc. reflexivity.
Qed.

Lemma refresh_changelog_list_run (s : state) (w : world) (es : list Entry) :
  fst (load_changelog w) = Ok es ->
  refresh_changelog_list s w = (Done tt, refreshed es s, w).
Proof.
  intros Hload. apply load_changelog_ok in Hload as [Hload _].
  unfold refresh_changelog_list, gbind at 1, lift. rewrite Hload.
  unfold gbind, modify, get. rewrite insert_lines_run. reflexivity.
Qed.

Lemma refresh_changelog_list_fails (s : state) (w : world) (e : exn) :
  fst (load_changelog w) = Raise e ->
  refresh_changelog_list s w = (Failed (CoreError e), s, w).
Proof.
  intros Hload. rewrite load_changelog_run in Hload. cbn [fst] in Hload.
  unfold refresh_changelog_list, gbind at 1, lift. rewrite load_changelog_run.
  destruct (readable (changelog w)); [discriminate|].
  injection Hload as <-. reflexivity.
Qed.

Lemma clear_selection_run (s : state) (w : world) :
  clear_selection s w = (Done tt, cleared s, w).
Proof. reflexivity. Qed.

Lemma on_entry_select_run (s : state) (w : world) :
  on_entry_select s w =
  match curselection s with
  | [] => (Done tt, s, w)
  | i :: _ =>
      match nth_error (entries s) i with
      | Some e => (Done tt, editing e s, w)
      | None => (Failed IndexError, s, w)
      end
  end.
Proof.
  unfold on_entry_select, gbind at 1, get.
  destruct (curselection s) as [|i rest] eqn:Hsel; [reflexivity|].
  destruct (nth_error (entries s) i) as [e|]; [|reflexivity].
  unfold editing. destruct s. widgets. cbn [app] in *.
  cbn [curselection] in Hsel. rewrite app_nil_r. reflexivity.
Qed.

End WindowRuns.

Section CallbackRuns.

Lemma text_of_window (s : state) : strip (text_input_get s) = strip (text_input s).
Proof. unfold text_input_get, nl. apply strip_app_space. reflexivity. Qed.

Lemma load_after_save_events (w : world) (es : list Entry) (evs : list event) :
  fst (load_changelog (after (saved w es) evs)) = Ok (sort_desc es).
Proof. rewrite load_changelog_run. reflexivity. Qed.

(** [save_entry_callback] when the core function does not succeed. *)
Lemma save_entry_callback_blank (now : datetime) (s : state) (w : world) :
  strip (text_input s) = [] ->
  save_entry_callback now s w = (Done tt, s, after w [empty_text_warning]).
Proof.
  intros Hblank. unfold save_entry_callback, gbind at 1, get.
  rewrite text_of_window, Hblank.
  destruct (selected s); reflexivity.
Qed.

Lemma save_entry_callback_adds
      (now : datetime) (s : state) (w : world) (es : list Entry) :
  selected s = None -> truthy (strip (text_input s)) = true ->
  fst (load_changelog w) = Ok es ->
  let new_entry := mkEntry (isoformat now) (operation_var s) (strip (text_input s)) in
  save_entry_callback now s w =
  if writable (es ++ [new_entry])
  then (Done tt, cleared (refreshed (sort_desc (es ++ [new_entry])) s),
        after (saved w (es ++ [new_entry])) [entry_added])
  else (Failed (CoreError UnicodeEncodeError), s, truncated w).
Proof.
  intros Hsel Htxt Hload new_entry.
  unfold save_entry_callback, gbind at 1, get.
  rewrite text_of_window, Hsel.
  unfold gbind at 1. unfold gbind at 1. unfold lift at 1.
  rewrite (add_entry_run w now (operation_var s) (strip (text_input s)) es)
    by (rewrite ?strip_idem; assumption).
  fold new_entry. unfold save_and_succeed.
  destruct (writable (es ++ [new_entry])); [|reflexivity].
  unfold gbind at 1. unfold lift, emit. cbn [changelog trace].
  unfold gret. unfold gbind at 1.
  rewrite (refresh_changelog_list_run s _ (sort_desc (es ++ [new_entry])))
    by apply (load_after_save_events w (es ++ [new_entry]) [entry_added]).
  reflexivity.
Qed.

Lemma save_entry_callback_edits
      (now : datetime) (s : state) (w : world) (ts : pystr) (es : list Entry) :
  selected s = Some ts -> truthy (strip (text_input s)) = true ->
  fst (load_changelog w) = Ok es ->
  let edited := update_first ts (operation_var s) (strip (text_input s)) es in
  save_entry_callback now s w =
  if snd edited then
    if writable (fst edited)
    then (Done tt, cleared (refreshed (fst edited) s),
          after (saved w (fst edited)) [entry_updated])
    else (Failed (CoreError UnicodeEncodeError), s, truncated w)
  else (Done tt, s, after w [edit_not_found]).
Proof.
  intros Hsel Htxt Hload edited.
  pose proof (loaded_sorted _ Hload) as Hsorted.
  unfold save_entry_callback, gbind at 1, get.
  rewrite text_of_window, Hsel.
  unfold gbind at 1. unfold gbind at 1. unfold lift at 1.
  rewrite (edit_entry_run w ts (operation_var s) (strip (text_input s)) es)
    by (rewrite ?strip_idem; assumption).
  fold edited. destruct (snd edited); [|reflexivity].
  unfold save_and_succeed. destruct (writable (fst edited)); [|reflexivity].
  unfold gbind at 1. unfold lift, emit. cbn [changelog trace].
  unfold gret. unfold gbind at 1.
  rewrite (refresh_changelog_list_run s _ (fst edited)).
  - reflexivity.
  - transitivity (@Ok (list Entry) (sort_desc (fst edited)));
      [exact (load_after_save_events w (fst edited) [entry_updated])|].
    rewrite sort_desc_id; [reflexivity|]. apply update_first_sorted, Hsorted.
Qed.

Lemma delete_entry_callback_run
      (confirm : bool) (s : state) (w : world) (ts : pystr) (es : list Entry) :
  selected s = Some ts -> fst (load_changelog w) = Ok es ->
  let keep := filter (fun e => negb (str_eqb (timestamp e) ts)) es in
  let s1 := askyesno (fst delete_question) (snd delete_question) s in
  delete_entry_callback confirm s w =
  if confirm then
    if Nat.eqb (length es) (length keep)
    then (Done tt, s1, after w [delete_not_found])
    else if writable keep
    then (Done tt, cleared (refreshed keep s1),
          after (saved w keep) [entry_deleted])
    else (Failed (CoreError UnicodeEncodeError), s1, truncated w)
  else (Done tt, s1, w).
Proof.
  intros Hsel Hload keep s1.
  pose proof (loaded_sorted _ Hload) as Hsorted.
  unfold delete_entry_callback, gbind at 1, get. rewrite Hsel.
  unfold gbind at 1. unfold modify at 1. cbn [fst snd delete_question] in s1.
  fold s1. destruct confirm; [|reflexivity].
  unfold gbind at 1. unfold lift at 1.
  rewrite (delete_entry_run w ts es Hload). cbv zeta. fold keep.
  destruct (Nat.eqb (length es) (length keep)); [reflexivity|].
  unfold save_and_succeed. destruct (writable keep); [|reflexivity].
  unfold gbind at 1. unfold lift, emit. cbn [changelog trace].
  unfold gbind at 1.
  rewrite (refresh_changelog_list_run s1 _ keep).
  - reflexivity.
  - transitivity (@Ok (list Entry) (sort_desc keep));
      [exact (load_after_save_events w keep [entry_deleted])|].
    rewrite sort_desc_id; [reflexivity|]. apply sorted_filter, Hsorted.
Qed.

End CallbackRuns.

(** ** Properties of the window *)

Section PreviewFacts.

Lemma replace_newline_length (s : pystr) :
  length (replace_char 10 (lit " ") s) = length s.
Proof.
  unfold replace_char. induction s as [|c s IH]; [reflexivity|]. cbn [flat_map].
  rewrite length_app, IH. destruct (c =? 10)%N; reflexivity.
Qed.

Lemma replace_newline_none (s : pystr) : ~ In 10%N (replace_char 10 (lit " ") s).
Proof.
  unfold replace_char. intros H. apply in_flat_map in H.
  destruct H as (c & Hin & Hc).
  destruct (N.eqb c 10) eqn:E; cbn in Hc; destruct Hc as [Hc|[]].
  - discriminate Hc.
  - subst c. discriminate E.
Qed.

Lemma replace_newline_id (s : pystr) :
  ~ In 10%N s -> replace_char 10 (lit " ") s = s.
Proof.
  unfold replace_char. induction s as [|c s IH]; intros H; [reflexivity|].
  cbn [flat_map].
  destruct (N.eqb_spec c 10) as [->|_]; [destruct H; left; reflexivity|].
  cbn [app]. f_equal. apply IH. intros Hin. apply H. right. exact Hin.
Qed.

End PreviewFacts.

(** X18: the preview of a text in the list has no newline and at most 73
    characters; a text of at most 70 characters without newline is shown as
    it is. *)
Theorem text_preview_fits (txt : pystr) :
  length (text_preview txt) <= 73 /\
  ~ In 10%N (text_preview txt) /\
  (length txt <= 70 -> ~ In 10%N txt -> text_preview txt = txt).
Proof.
  unfold text_preview. cbv zeta. split; [|split].
  - rewrite replace_newline_length.
    destruct (Nat.ltb_spec 70 (length txt)) as [H|H]; [|lia].
    rewrite length_app, length_firstn.
    change (length (lit "...")) with 3.
    pose proof (Nat.le_min_l 70 (length txt)). lia.
  - apply replace_newline_none.
  - intros Hlen Hnl.
    destruct (Nat.ltb_spec 70 (length txt)) as [H|H]; [lia|].
    apply replace_newline_id, Hnl.
Qed.

(** X19: after [refresh_changelog_list] on a changelog that can be read, the
    window holds the loaded entries and the list has one line per entry, in
    the order of the load, line [i] being the line of entry [i]; nothing is
    selected.  If the load raises, the method raises and the window keeps
    what it showed before. *)
Theorem refresh_shows_loaded_entries (s : state) (w : world) :
  (forall es, fst (load_changelog w) = Ok es ->
     refresh_changelog_list s w = (Done tt, refreshed es s, w) /\
     entries (refreshed es s) = es /\
     length (changelog_list (refreshed es s)) = length es /\
     curselection (refreshed es s) = [] /\
     (forall i, nth_error (changelog_list (refreshed es s)) i
                = option_map display_str (nth_error es i))) /\
  (forall e, fst (load_changelog w) = Raise e ->
     refresh_changelog_list s w = (Failed (CoreError e), s, w)).
Proof.
  split.
  - intros es Hload. split; [apply refresh_changelog_list_run, Hload|].
    cbn [refreshed entries changelog_list curselection].
    split; [reflexivity | split; [apply length_map | split; [reflexivity|]]].
    intros i. apply nth_error_map.
  - intros e Hload. apply refresh_changelog_list_fails, Hload.
Qed.

(** X20: when the list has as many lines as the window has entries, a click
    on a line never raises IndexError: [on_entry_select] puts the timestamp,
    the operation and the text of the entry of that line into the form and
    switches the buttons to editing. *)
Theorem selecting_a_line_loads_its_entry
        (s : state) (w : world) (i : nat) (rest : list nat) :
  curselection s = i :: rest ->
  length (changelog_list s) = length (entries s) ->
  i < length (changelog_list s) ->
  exists e,
    nth_error (entries s) i = Some e /\
    on_entry_select s w = (Done tt, editing e s, w) /\
    selected_entry_timestamp (editing e s) = Some (timestamp e) /\
    operation_var (editing e s) = operation e /\
    text_input (editing e s) = text e /\
    save_button (editing e s) = lit "Save Changes" /\
    delete_button (editing e s) = true /\
    entries (editing e s) = entries s /\
    changelog_list (editing e s) = changelog_list s.
Proof.
  intros Hsel Hlen Hi. rewrite Hlen in Hi.
  destruct (nth_error (entries s) i) as [e|] eqn:He;
    [|apply nth_error_None in He; lia].
  exists e. split; [reflexivity|].
  split; [rewrite on_entry_select_run, Hsel, He; reflexivity|].
  repeat split.
Qed.

Lemma selecting_a_line_loads_its_entry_witness :
  curselection sample_window = 1 :: [] /\
  length (changelog_list sample_window) = length (entries sample_window) /\
  1 < length (changelog_list sample_window) /\
  exists e,
    nth_error (entries sample_window) 1 = Some e /\
    on_entry_select sample_window sample_world
    = (Done tt, editing e sample_window, sample_world).
Proof.
  assert (H : 1 < length (changelog_list sample_window)) by (cbn; lia).
  split; [reflexivity | split; [reflexivity | split; [exact H|]]].
  destruct (selecting_a_line_loads_its_entry sample_window sample_world 1 []
              eq_refl eq_refl H) as (e & He & Hrun & _).
  exists e. split; [exact He | exact Hrun].
Defined.

(** X21: in add mode, with a text that is not blank, and when the typed
    text, the operation and the strings of the changelog can be encoded as
    UTF-8, [save_entry_callback] stores an entry whose text is the typed
    text without the white space around it, tells the user, shows the
    reloaded entries in the list and puts the form back to its start. *)
Theorem save_adds_stripped_entry
        (now : datetime) (s : state) (w : world) (es : list Entry) :
  selected s = None ->
  truthy (strip (text_input s)) = true ->
  fst (load_changelog w) = Ok es ->
  writable es = true ->
  encodable (operation_var s) = true -> encodable (text_input s) = true ->
  exists s' w' new_entry,
    save_entry_callback now s w = (Done tt, s', w') /\
    timestamp new_entry = isoformat now /\
    operation new_entry = operation_var s /\
    text new_entry = strip (text_input s) /\
    strip (text new_entry) = text new_entry /\
    changelog w' = Stored (es ++ [new_entry]) /\
    trace w' = trace w ++ [changelog_written (es ++ [new_entry]); entry_added] /\
    fst (load_changelog w') = Ok (entries s') /\
    In new_entry (entries s') /\
    changelog_list s' = map display_str (entries s') /\
    selected_entry_timestamp s' = None /\
    text_input s' = [] /\
    operation_var s' = lit "Created" /\
    save_button s' = lit "Add Entry".
Proof.
  intros Hsel Htxt Hload Hw Hop Hbytes.
  set (new_entry := mkEntry (isoformat now) (operation_var s) (strip (text_input s))).
  exists (cleared (refreshed (sort_desc (es ++ [new_entry])) s)),
         (after (saved w (es ++ [new_entry])) [entry_added]), new_entry.
  split.
  { rewrite (save_entry_callback_adds now s w es Hsel Htxt Hload). cbv zeta.
    fold new_entry. unfold new_entry.
    rewrite writable_new_entry by (try apply encodable_strip; assumption).
    reflexivity. }
  split; [reflexivity | split; [reflexivity | split; [reflexivity|]]].
  split; [apply strip_idem|]. split; [reflexivity|].
  split; [cbn [after saved trace]; rewrite <- app_assoc; reflexivity|].
  split; [apply load_after_save_events|].
  split; [|repeat split].
  cbn [cleared refreshed entries].
  eapply Permutation_in; [apply sort_desc_perm|].
  apply in_or_app. right. left. reflexivity.
Qed.

Lemma save_adds_stripped_entry_witness :
  selected sample_window = None /\
  truthy (strip (text_input sample_window)) = true /\
  fst (load_changelog sample_world) = Ok [entry_c; entry_b; entry_a] /\
  writable [entry_c; entry_b; entry_a] = true /\
  encodable (operation_var sample_window) = true /\
  encodable (text_input sample_window) = true /\
  exists s' w' new_entry,
    save_entry_callback sample_now sample_window sample_world = (Done tt, s', w') /\
    text new_entry = lit "Added export" /\
    In new_entry (entries s').
Proof.
  split; [reflexivity | split; [reflexivity | split; [reflexivity |
    split; [reflexivity | split; [reflexivity | split; [reflexivity|]]]]]].
  destruct (save_adds_stripped_entry sample_now sample_window sample_world
              [entry_c; entry_b; entry_a] eq_refl eq_refl eq_refl
              eq_refl eq_refl eq_refl)
    as (s' & w' & new_entry & Hrun & _ & _ & Htext & _ & _ & _ & _ & Hin & _).
  exists s', w', new_entry. split; [exact Hrun | split; [exact Htext | exact Hin]].
Defined.

(** X22: when [save_entry_callback] does not succeed, because the text is
    blank or because the entry to edit is no longer in the changelog, the
    message of the core function is all that happens: the form keeps its
    content and its mode, and the list is not reloaded. *)
Theorem failed_save_keeps_window (now : datetime) (s : state) (w : world) :
  (strip (text_input s) = [] ->
   save_entry_callback now s w = (Done tt, s, after w [empty_text_warning])) /\
  (forall ts es,
     selected s = Some ts -> truthy (strip (text_input s)) = true ->
     fst (load_changelog w) = Ok es ->
     (forall x, In x es -> timestamp x <> ts) ->
     save_entry_callback now s w = (Done tt, s, after w [edit_not_found])).
Proof.
  split; [apply save_entry_callback_blank|].
  intros ts es Hsel Htxt Hload Hnone.
  rewrite (save_entry_callback_edits now s w ts es Hsel Htxt Hload). cbv zeta.
  rewrite update_first_missing by exact Hnone. reflexivity.
Qed.

(** X23: [delete_entry_callback] deletes nothing without a selection and
    nothing without consent: with no entry selected it does not even ask,
    and when the user answers no, the question is all that happened. *)
Theorem delete_needs_selection_and_consent (s : state) (w : world) :
  (selected s = None ->
   forall confirm, delete_entry_callback confirm s w = (Done tt, s, w)) /\
  (forall ts, selected s = Some ts ->
   delete_entry_callback false s w =
   (Done tt, askyesno (fst delete_question) (snd delete_question) s, w)).
Proof.
  split.
  - intros Hsel confirm. unfold delete_entry_callback, gbind at 1, get.
    rewrite Hsel. reflexivity.
  - intros ts Hsel. unfold delete_entry_callback, gbind at 1, get.
    rewrite Hsel. reflexivity.
Qed.

(** X24: with an entry selected that the changelog still holds, and when
    the strings of the entries that stay can be encoded as UTF-8, a
    confirmed [delete_entry_callback] removes the entries with that
    timestamp, tells the user, shows the reloaded entries and puts the form
    back to add mode. *)
Theorem confirmed_delete_removes_entry
        (s : state) (w : world) (ts : pystr) (es : list Entry) :
  selected s = Some ts ->
  fst (load_changelog w) = Ok es ->
  (exists x, In x es /\ timestamp x = ts) ->
  (forall x, In x es -> timestamp x <> ts -> encodable_entry x = true) ->
  exists s' w',
    delete_entry_callback true s w = (Done tt, s', w') /\
    fst (load_changelog w') = Ok (entries s') /\
    (forall x, In x (entries s') <-> In x es /\ timestamp x <> ts) /\
    changelog_list s' = map display_str (entries s') /\
    selected_entry_timestamp s' = None /\
    delete_button s' = false /\
    asked s' = asked s ++ [delete_question] /\
    trace w' = trace w ++ [changelog_written (entries s'); entry_deleted].
Proof.
  intros Hsel Hload (x & Hx & Hts) Hbytes.
  pose proof (loaded_sorted _ Hload) as Hsorted.
  set (keep := filter (fun e => negb (str_eqb (timestamp e) ts)) es).
  set (s1 := askyesno (fst delete_question) (snd delete_question) s).
  assert (Hkeep : forall y, In y keep <-> In y es /\ timestamp y <> ts).
  { intros y. unfold keep. rewrite filter_In, negb_true_iff, str_eqb_neq. tauto. }
  assert (Hw : writable keep = true).
  { apply forallb_forall. intros y Hy. apply Hkeep in Hy as [Hy Hne].
    exact (Hbytes y Hy Hne). }
  exists (cleared (refreshed keep s1)), (after (saved w keep) [entry_deleted]).
  split.
  - rewrite (delete_entry_callback_run true s w ts es Hsel Hload). cbv zeta.
    fold keep. rewrite Hw.
    destruct (Nat.eqb_spec (length es) (length keep)) as [Heq|];
      [|reflexivity].
    exfalso. symmetry in Heq. unfold keep in Heq.
    rewrite filter_length_same in Heq. specialize (Heq x Hx).
    apply negb_true_iff, str_eqb_neq in Heq. auto.
  - cbn [cleared refreshed entries changelog_list selected_entry_timestamp
         delete_button asked].
    split.
    { transitivity (@Ok (list Entry) (sort_desc keep));
        [exact (load_after_save_events w keep [entry_deleted])|].
      rewrite sort_desc_id; [reflexivity | apply sorted_filter, Hsorted]. }
    split; [exact Hkeep|].
    split; [reflexivity | split; [reflexivity | split; [reflexivity|]]].
    split; [reflexivity|].
    cbn [after saved trace]. rewrite <- app_assoc. reflexivity.
Qed.

Lemma confirmed_delete_removes_entry_witness :
  let s := editing entry_b sample_window in
  selected s = Some (timestamp entry_b) /\
  fst (load_changelog sample_world) = Ok [entry_c; entry_b; entry_a] /\
  (exists x, In x [entry_c; entry_b; entry_a] /\ timestamp x = timestamp entry_b) /\
  (forall x, In x [entry_c; entry_b; entry_a] -> timestamp x <> timestamp entry_b ->
             encodable_entry x = true) /\
  exists s' w',
    delete_entry_callback true s sample_world = (Done tt, s', w') /\
    fst (load_changelog w') = Ok (entries s').
Proof.
  cbv zeta.
  assert (H : exists x, In x [entry_c; entry_b; entry_a] /\
                        timestamp x = timestamp entry_b)
    by (exists entry_b; split; [right; left; reflexivity | reflexivity]).
  assert (Hb : forall x, In x [entry_c; entry_b; entry_a] ->
                         timestamp x <> timestamp entry_b ->
                         encodable_entry x = true).
  { intros x [<-|[<-|[<-|[]]]] _; reflexivity. }
  split; [reflexivity | split; [reflexivity | split; [exact H | split; [exact Hb|]]]].
  destruct (confirmed_delete_removes_entry (editing entry_b sample_window)
              sample_world (timestamp entry_b) [entry_c; entry_b; entry_a]
              eq_refl eq_refl H Hb) as (s' & w' & Hrun & Hload & _).
  exists s', w'. split; [exact Hrun | exact Hload].
Defined.

Section ConsistencyFacts.

Lemma store_fails_with_load (w : world) (e : exn) (now : datetime)
      (ts op txt : pystr) :
  fst (load_changelog w) = Raise e ->
  (truthy (strip txt) = true ->
   add_entry now op txt w = (Raise e, w) /\
   edit_entry ts op txt w = (Raise e, w)) /\
  delete_entry ts w = (Raise e, w).
Proof.
  intros Hload.
  assert (H : load_changelog w = (Raise e, w)).
  { rewrite load_changelog_run in *. cbn [fst] in Hload.
    destruct (readable (changelog w)); [discriminate|].
    injection Hload as <-. reflexivity. }
  split.
  - intros Htxt. unfold add_entry, edit_entry. rewrite Htxt. cbn [negb].
    unfold bind. rewrite H. auto.
  - unfold delete_entry, bind. rewrite H. reflexivity.
Qed.

(** The window [save_entry_callback] leaves is the one it found, or a
    reloaded one with the form put back. *)
Lemma save_entry_callback_state (now : datetime) (s : state) (w : world) :
  state_of (save_entry_callback now s w) = s \/
  exists es, state_of (save_entry_callback now s w) = cleared (refreshed es s).
Proof.
  destruct (strip (text_input s)) as [|c r] eqn:Hstrip.
  - left. rewrite save_entry_callback_blank by exact Hstrip. reflexivity.
  - assert (Htxt : truthy (strip (text_input s)) = true) by (rewrite Hstrip; reflexivity).
    destruct (fst (load_changelog w)) as [es|e] eqn:Hload.
    + destruct (selected s) as [ts|] eqn:Hsel.
      * rewrite (save_entry_callback_edits now s w ts es Hsel Htxt Hload). cbv zeta.
        destruct (snd _); [|left; reflexivity].
        destruct (writable _); [right; eexists; reflexivity | left; reflexivity].
      * rewrite (save_entry_callback_adds now s w es Hsel Htxt Hload). cbv zeta.
        destruct (writable _); [right; eexists; reflexivity | left; reflexivity].
    + left. unfold save_entry_callback, gbind at 1, get.
      rewrite text_of_window.
      assert (Htxt' : truthy (strip (strip (text_input s))) = true)
        by (rewrite strip_idem; exact Htxt).
      destruct (selected s) as [ts|];
        unfold gbind at 1; unfold gbind at 1; unfold lift at 1.
      * rewrite (proj2 (proj1 (store_fails_with_load w e now ts (operation_var s)
                                 (strip (text_input s)) Hload) Htxt')).
        reflexivity.
      * rewrite (proj1 (proj1 (store_fails_with_load w e now [] (operation_var s)
                                 (strip (text_input s)) Hload) Htxt')).
        reflexivity.
Qed.

Lemma delete_entry_callback_state (confirm : bool) (s : state) (w : world) :
  let s1 := askyesno (fst delete_question) (snd delete_question) s in
  state_of (delete_entry_callback confirm s w) = s \/
  state_of (delete_entry_callback confirm s w) = s1 \/
  exists es, state_of (delete_entry_callback confirm s w) = cleared (refreshed es s1).
Proof.
  intros s1. destruct (selected s) as [ts|] eqn:Hsel.
  - destruct (fst (load_changelog w)) as [es|e] eqn:Hload.
    + rewrite (delete_entry_callback_run confirm s w ts es Hsel Hload). cbv zeta.
      fold s1. destruct confirm; [|right; left; reflexivity].
      destruct (Nat.eqb _ _); [right; left; reflexivity|].
      destruct (writable _); [|right; left; reflexivity].
      right; right. eexists. reflexivity.
    + right; left. unfold delete_entry_callback, gbind at 1, get. rewrite Hsel.
      unfold gbind at 1. unfold modify at 1. destruct confirm; [|reflexivity].
      unfold gbind at 1. unfold lift at 1.
      rewrite (proj2 (store_fails_with_load w e (mkDatetime 0 0 0 0 0 0 0) ts [] []
                        Hload)).
      reflexivity.
  - left. unfold delete_entry_callback, gbind at 1, get. rewrite Hsel. reflexivity.
Qed.

Lemma consistent_refreshed (es : list Entry) (s : state) :
  consistent s -> consistent (refreshed es s).
Proof. intros [_ Hmode]. split; [reflexivity | exact Hmode]. Qed.

Lemma consistent_cleared (s : state) : consistent s -> consistent (cleared s).
Proof. intros [Hlist _]. split; [exact Hlist | repeat split]. Qed.

Lemma consistent_askyesno (title message : pystr) (s : state) :
  consistent s -> consistent (askyesno title message s).
Proof. intros H. exact H. Qed.

Lemma consistent_editing (e : Entry) (s : state) :
  truthy (timestamp e) = true -> consistent s -> consistent (editing e s).
Proof.
  intros Hts [Hlist _]. split; [exact Hlist|].
  unfold selected. cbn [editing selected_entry_timestamp]. rewrite Hts.
  repeat split.
Qed.

(** With an entry of empty timestamp in the form, the buttons say editing
    and the callbacks add. *)
Lemma inconsistent_editing (e : Entry) (s : state) :
  timestamp e = [] -> ~ consistent (editing e s).
Proof.
  intros Hts [_ Hmode]. unfold selected in Hmode.
  cbn [editing selected_entry_timestamp] in Hmode. rewrite Hts in Hmode.
  cbn in Hmode. destruct Hmode as [Hsave _]. discriminate Hsave.
Qed.

Lemma consistent_initial : consistent initial_state.
Proof. split; [reflexivity | repeat split]. Qed.

Lemma refresh_changelog_list_state (s : state) (w : world) :
  state_of (refresh_changelog_list s w) = s \/
  exists es, state_of (refresh_changelog_list s w) = refreshed es s.
Proof.
  destruct (fst (load_changelog w)) as [es|e] eqn:Hload.
  - right. exists es. rewrite (refresh_changelog_list_run s w es Hload). reflexivity.
  - left. rewrite (refresh_changelog_list_fails s w e Hload). reflexivity.
Qed.

End ConsistencyFacts.

(** X25: selecting an entry and saving it at once changes nothing in the
    changelog, as long as the entry is the first with its timestamp, the
    timestamp is not empty, the text has no white space around it and the
    strings of the changelog can be encoded as UTF-8. *)
Theorem select_then_save_changes_nothing
        (now : datetime) (s : state) (w : world) (rest : list nat)
        (l1 : list Entry) (e : Entry) (l2 : list Entry) :
  curselection s = length l1 :: rest ->
  entries s = l1 ++ e :: l2 ->
  fst (load_changelog w) = Ok (entries s) ->
  writable (entries s) = true ->
  truthy (timestamp e) = true ->
  (forall x, In x l1 -> timestamp x <> timestamp e) ->
  truthy (text e) = true -> strip (text e) = text e ->
  exists s1 s2 w2,
    on_entry_select s w = (Done tt, s1, w) /\
    save_entry_callback now s1 w = (Done tt, s2, w2) /\
    changelog w2 = Stored (entries s) /\
    fst (load_changelog w2) = Ok (entries s) /\
    entries s2 = entries s.
Proof.
  intros Hsel Hes Hload Hw Hts Hfirst Htxt Hstrip.
  assert (He : nth_error (entries s) (length l1) = Some e).
  { rewrite Hes, nth_error_app2, Nat.sub_diag by lia. reflexivity. }
  assert (Hsel1 : selected (editing e s) = Some (timestamp e)).
  { unfold selected. cbn [editing selected_entry_timestamp]. rewrite Hts. reflexivity. }
  assert (Htxt1 : truthy (strip (text_input (editing e s))) = true).
  { cbn [editing text_input]. rewrite Hstrip. exact Htxt. }
  assert (Hedit : update_first (timestamp e) (operation_var (editing e s))
                    (strip (text_input (editing e s))) (entries s)
                  = (entries s, true)).
  { cbn [editing operation_var text_input]. rewrite Hstrip, Hes.
    rewrite update_first_found by auto. destruct e. reflexivity. }
  exists (editing e s), (cleared (refreshed (entries s) (editing e s))),
         (after (saved w (entries s)) [entry_updated]).
  split; [rewrite on_entry_select_run, Hsel, He; reflexivity|].
  split.
  - rewrite (save_entry_callback_edits now (editing e s) w (timestamp e)
               (entries s) Hsel1 Htxt1 Hload).
    cbv zeta. rewrite Hedit. cbn [fst snd]. rewrite Hw. reflexivity.
  - split; [reflexivity|]. split; [|reflexivity].
    transitivity (@Ok (list Entry) (sort_desc (entries s)));
      [exact (load_after_save_events w (entries s) [entry_updated])|].
    rewrite sort_desc_id; [reflexivity | exact (loaded_sorted _ Hload)].
Qed.

Lemma select_then_save_changes_nothing_witness :
  curselection sample_window = length [entry_c] :: [] /\
  entries sample_window = [entry_c] ++ entry_b :: [entry_a] /\
  fst (load_changelog sample_world) = Ok (entries sample_window) /\
  writable (entries sample_window) = true /\
  truthy (timestamp entry_b) = true /\
  (forall x, In x [entry_c] -> timestamp x <> timestamp entry_b) /\
  truthy (text entry_b) = true /\ strip (text entry_b) = text entry_b /\
  exists s1 s2 w2,
    on_entry_select sample_window sample_world = (Done tt, s1, sample_world) /\
    save_entry_callback sample_now s1 sample_world = (Done tt, s2, w2) /\
    changelog w2 = Stored (entries sample_window) /\
    fst (load_changelog w2) = Ok (entries sample_window) /\
    entries s2 = entries sample_window.
Proof.
  assert (H : forall x, In x [entry_c] -> timestamp x <> timestamp entry_b).
  { intros x [<-|[]]. vm_compute. discriminate. }
  split; [reflexivity | split; [reflexivity | split; [reflexivity |
    split; [reflexivity | split; [reflexivity | split; [exact H |
    split; [reflexivity | split; [reflexivity|]]]]]]]].
  exact (select_then_save_changes_nothing sample_now sample_window sample_world []
           [entry_c] entry_b [entry_a] eq_refl eq_refl eq_refl eq_refl eq_refl H
           eq_refl eq_refl).
Defined.

(** X26: the mode the callbacks act in is the truth value of
    [self.selected_entry_timestamp].  If the list shows the entries the
    window holds and the buttons fit that mode, this is still so after
    [refresh_changelog_list], [clear_selection], [save_entry_callback] and
    [delete_entry_callback], whether they return or raise, and it is so
    after [__init__].  After [on_entry_select] it is so when no entry of the
    window has an empty timestamp; a click on an entry with an empty
    timestamp breaks it. *)
Theorem window_stays_consistent (s : state) (w : world) :
  consistent s ->
  consistent (state_of (refresh_changelog_list s w)) /\
  ((forall e, In e (entries s) -> truthy (timestamp e) = true) ->
   consistent (state_of (on_entry_select s w))) /\
  (forall i rest e,
     curselection s = i :: rest -> nth_error (entries s) i = Some e ->
     timestamp e = [] ->
     ~ consistent (state_of (on_entry_select s w))) /\
  consistent (state_of (clear_selection s w)) /\
  (forall now, consistent (state_of (save_entry_callback now s w))) /\
  (forall confirm, consistent (state_of (delete_entry_callback confirm s w))) /\
  (forall s0, consistent (state_of (init s0 w))).
Proof.
  intros Hs. split; [|split; [|split; [|split; [|split; [|split]]]]].
  - destruct (refresh_changelog_list_state s w) as [->|[es ->]];
      [exact Hs | apply consistent_refreshed, Hs].
  - intros Hts. rewrite on_entry_select_run.
    destruct (curselection s) as [|i rest]; [exact Hs|].
    destruct (nth_error (entries s) i) as [e|] eqn:He; [|exact Hs].
    apply consistent_editing; [|exact Hs].
    apply Hts. eapply nth_error_In, He.
  - intros i rest e Hsel He Hts. rewrite on_entry_select_run, Hsel, He.
    apply inconsistent_editing, Hts.
  - rewrite clear_selection_run. apply consistent_cleared, Hs.
  - intros now. destruct (save_entry_callback_state now s w) as [->|[es ->]];
      [exact Hs | apply consistent_cleared, consistent_refreshed, Hs].
  - intros confirm.
    destruct (delete_entry_callback_state confirm s w) as [->|[->|[es ->]]];
      [exact Hs | apply consistent_askyesno, Hs
       | apply consistent_cleared, consistent_refreshed, consistent_askyesno, Hs].
  - intros s0. change (init s0 w) with (refresh_changelog_list initial_state w).
    destruct (refresh_changelog_list_state initial_state w) as [->|[es ->]];
      [apply consistent_initial | apply consistent_refreshed, consistent_initial].
Qed.

Lemma window_stays_consistent_witness :
  consistent sample_window /\
  consistent (state_of (on_entry_select sample_window sample_world)) /\
  consistent (state_of (save_entry_callback sample_now sample_window sample_world)).
Proof.
  assert (H : consistent sample_window) by (split; [reflexivity | repeat split]).
  assert (Hts : forall e, In e (entries sample_window) -> truthy (timestamp e) = true).
  { intros e [<-|[<-|[<-|[]]]]; reflexivity. }
  split; [exact H | split].
  - exact (proj1 (proj2 (window_stays_consistent sample_window sample_world H)) Hts).
  - exact (proj1 (proj2 (proj2 (proj2 (proj2
             (window_stays_consistent sample_window sample_world H))))) sample_now).
Defined.

(** X27: an entry whose timestamp is the empty string cannot be edited or
    deleted through the window: once it is selected the buttons are in
    editing mode, yet [delete_entry_callback] does nothing and
    [save_entry_callback] adds a new entry instead of changing this one
    (when the strings to be written can be encoded as UTF-8). *)
Theorem empty_timestamp_is_no_selection
        (now : datetime) (s : state) (w : world) (i : nat) (rest : list nat)
        (e : Entry) (es : list Entry) :
  curselection s = i :: rest ->
  nth_error (entries s) i = Some e ->
  timestamp e = [] ->
  truthy (strip (text e)) = true ->
  fst (load_changelog w) = Ok es ->
  writable es = true ->
  encodable (operation e) = true -> encodable (text e) = true ->
  exists s1,
    on_entry_select s w = (Done tt, s1, w) /\
    save_button s1 = lit "Save Changes" /\ delete_button s1 = true /\
    (forall confirm, delete_entry_callback confirm s1 w = (Done tt, s1, w)) /\
    exists s2,
      save_entry_callback now s1 w =
      (Done tt, s2,
       after (saved w (es ++ [mkEntry (isoformat now) (operation e) (strip (text e))]))
             [entry_added]).
Proof.
  intros Hsel He Hts Htxt Hload Hw Hop Hbytes.
  assert (Hnone : selected (editing e s) = None).
  { unfold selected. cbn [editing selected_entry_timestamp]. rewrite Hts. reflexivity. }
  exists (editing e s).
  split; [rewrite on_entry_select_run, Hsel, He; reflexivity|].
  split; [reflexivity | split; [reflexivity | split]].
  - intros confirm. unfold delete_entry_callback, gbind at 1, get.
    rewrite Hnone. reflexivity.
  - eexists.
    rewrite (save_entry_callback_adds now (editing e s) w es Hnone Htxt Hload).
    cbv zeta. cbn [editing operation_var text_input].
    rewrite writable_new_entry by (try apply encodable_strip; assumption).
    reflexivity.
Qed.

Lemma empty_timestamp_is_no_selection_witness :
  let blank := mkEntry [] (lit "Created") (lit "No date") in
  let w := mkWorld (Stored [blank]) [] in
  let s := mkState [blank] None (lit "Created") [] true (lit "Add Entry")
             false false [display_str blank] [0] [] in
  curselection s = 0 :: [] /\ nth_error (entries s) 0 = Some blank /\
  timestamp blank = [] /\ truthy (strip (text blank)) = true /\
  fst (load_changelog w) = Ok [blank] /\
  exists s1,
    on_entry_select s w = (Done tt, s1, w) /\
    save_button s1 = lit "Save Changes" /\ delete_button s1 = true /\
    (forall confirm, delete_entry_callback confirm s1 w = (Done tt, s1, w)) /\
    exists s2,
      save_entry_callback sample_now s1 w =
      (Done tt, s2,
       after (saved w ([blank] ++ [mkEntry (isoformat sample_now) (operation blank)
                                     (strip (text blank))]))
             [entry_added]).
Proof.
  cbv zeta.
  split; [reflexivity | split; [reflexivity | split; [reflexivity |
    split; [reflexivity | split; [reflexivity|]]]]].
  exact (empty_timestamp_is_no_selection sample_now
           (mkState [mkEntry [] (lit "Created") (lit "No date")] None (lit "Created")
              [] true (lit "Add Entry") false false
              [display_str (mkEntry [] (lit "Created") (lit "No date"))] [0] [])
           (mkWorld (Stored [mkEntry [] (lit "Created") (lit "No date")]) [])
           0 [] (mkEntry [] (lit "Created") (lit "No date"))
           [mkEntry [] (lit "Created") (lit "No date")]
           eq_refl eq_refl eq_refl eq_refl eq_refl eq_refl eq_refl eq_refl).
Defined.
